(** * reddit-pokemongo-py: the OAuth2 token lifecycle and the post/delete loop

    A shallow embedding of [application.py].  Python values that flow from
    JSON responses into the program are kept dynamically typed ([PyVal]);
    every call that leaves the process (HTTP, clock, console, browser, sleep,
    logging) is recorded in a trace and answered by a deterministic
    environment that may look at the whole history; exceptions are explicit
    results, and mutations made before an exception are kept. *)

From Stdlib Require Import ZArith QArith String List Bool Ascii Lia.
From stdpp Require Import base gmap strings.

#[local] Set Warnings "-register-all".
Local Open Scope string_scope.
Local Open Scope list_scope.
Local Open Scope Z_scope.

(** ** Python values *)

(** The values [json()] can produce.  A Python float is kept as the
    rational it denotes; the operations that produce floats round to
    binary64 (see [binary64] below).  NaN and the infinities are not
    modelled. *)
Inductive PyVal : Type :=
| PNone
| PBool (b : bool)
| PInt (z : Z)
| PFloat (q : Q)
| PStr (s : string)
| PList (l : list PyVal)
| PDict (d : gmap string PyVal).

Inductive Exn : Type :=
| KeyError (key : string)
| TypeError
| ValueError
| AttributeError
| AssertionError
| UnicodeEncodeError
| RequestException.

Inductive Result (A : Type) : Type :=
| Return (a : A)
| Raise (e : Exn).
Arguments Return {A} a.
Arguments Raise {A} e.

(** [bool(v)]: the truth value Python's [if v:] tests. *)
Definition truthy (v : PyVal) : bool :=
  match v with
  | PNone => false
  | PBool b => b
  | PInt z => negb (z =? 0)
  | PFloat q => negb (Qeq_bool q 0)
  | PStr s => negb (String.eqb s EmptyString)
  | PList l => match l with [] => false | _ => true end
  | PDict d => negb (bool_decide (d = ∅))
  end.

(** [v[key]] with a string key: only a dict can be indexed by a string. *)
Definition getitem (v : PyVal) (key : string) : Result PyVal :=
  match v with
  | PDict d => match d !! key with
               | Some x => Return x
               | None => Raise (KeyError key)
               end
  | _ => Raise TypeError
  end.

(** *** binary64 arithmetic *)

(** The integer nearest to [a / b] for [0 < b], ties going to the even
    one. *)
Definition round_half_even (a b : Z) : Z :=
  let f := a / b in
  match 2 * (a mod b) ?= b with
  | Lt => f
  | Gt => f + 1
  | Eq => if Z.even f then f else f + 1
  end.

(** [a / b] rounded to an integer of at most 53 significant bits. *)
Definition round_53 (a b : Z) : Z :=
  let j := Z.max 0 (Z.log2 (Z.abs a / b) - 52) in
  round_half_even a (b * 2 ^ j) * 2 ^ j.

(** The binary64 number nearest to [q], ties to even: [q] is counted in
    units of 2^-1074, the smallest subnormal, and rounded to 53 significant
    bits.  The exponent is not bounded above: no value this program computes
    comes near 2^1024. *)
Definition binary64 (q : Q) : Q :=
  let q' := Qred q in
  round_53 (Qnum q' * 2 ^ 1074) (Z.pos (Qden q')) # (2 ^ 1074)%positive.

(** The multiples of 2^-1074 that binary64 represents, as integers. *)
Definition in_grid (g : Z) : Prop :=
  exists m j, 0 <= j /\ Z.abs m <= 2 ^ 53 /\ g = m * 2 ^ j.

(** [v - k] for an int [k]: exact on integers; next to a float, [k] is
    converted to a float and the difference is rounded. *)
Definition sub_int (v : PyVal) (k : Z) : Result PyVal :=
  match v with
  | PInt z => Return (PInt (z - k))
  | PBool b => Return (PInt (Z.b2z b - k))
  | PFloat q => Return (PFloat (binary64 (q - binary64 (inject_Z k))))
  | _ => Raise TypeError
  end.

(** [x >= v] for a float [x]: Python compares a float with an int or a
    float by their exact values. *)
Definition float_ge (x : Q) (v : PyVal) : Result bool :=
  match v with
  | PInt z => Return (Qle_bool (inject_Z z) x)
  | PBool b => Return (Qle_bool (inject_Z (Z.b2z b)) x)
  | PFloat q => Return (Qle_bool q x)
  | _ => Raise TypeError
  end.

(** [s.encode('ascii')]: fails on a character outside 0..127. *)
Definition encode_ascii (s : string) : Result string :=
  if forallb (fun c => (nat_of_ascii c <? 128)%nat) (list_ascii_of_string s)
  then Return s
  else Raise UnicodeEncodeError.

(** ** The interpreter and the outside world *)

(** Library functions whose algorithms are not part of this repository. *)
Record Builtins : Type := {
  repr : PyVal -> string;
  int_of_str : string -> option Z;
  b64encode : string -> string
}.

Inductive Level : Type := DEBUG | INFO | ERROR.

Inductive Event : Type :=
| Logging (level : Level) (msg : string)
| Print (msg : string)
| Input (prompt : string)
| Uuid4
| DatetimeNow
| RequestsGet (url : string) (params headers : list (string * string))
| RequestsPost (url : string) (headers : list (string * string))
    (data : list (string * PyVal))
| WebbrowserOpen (url : string) (new : Z)
| TimeSleep (seconds : Z).

(** Most recent call first. *)
Definition Trace : Type := list Event.

(** What the program reads from a [requests] response: [json] is [None]
    when [r.json()] raises. *)
Record Response : Type := {
  status_code : Z;
  url : string;
  json : option PyVal
}.

(** The environment answers a call from the history that ends with it (the
    call itself is the head of the trace).  [clock] is in microseconds. *)
Record World : Type := {
  http : Trace -> Result Response;
  clock : Trace -> Z;
  uuid4 : Trace -> string;
  stdin : Trace -> string
}.

(** [Token_issued_at] is the default of the dataclass field [issued_at]: the
    value [datetime.now()] had when the class statement was executed. *)
Record Env : Type := {
  py : Builtins;
  world : World;
  Token_issued_at : Z
}.

(** ** A state, trace and exception monad *)

Definition M (S A : Type) : Type := Env -> S -> Trace -> Result A * S * Trace.

Definition ret {S A} (a : A) : M S A := fun _ s tr => (Return a, s, tr).

Definition bind {S A B} (m : M S A) (k : A -> M S B) : M S B :=
  fun env s tr =>
    match m env s tr with
    | (Return a, s', tr') => k a env s' tr'
    | (Raise e, s', tr') => (Raise e, s', tr')
    end.

Notation "x <- m ;; k" := (bind m (fun x => k))
  (at level 100, m at next level, right associativity).
Notation "m ;; k" := (bind m (fun _ => k))
  (at level 100, right associativity).

Definition lift {S A} (r : Result A) : M S A := fun _ s tr => (r, s, tr).
Definition get {S} : M S S := fun _ s tr => (Return s, s, tr).
Definition modify {S} (f : S -> S) : M S unit := fun _ s tr => (Return tt, f s, tr).
Definition ask {S} : M S Env := fun env s tr => (Return env, s, tr).

(** A call that returns nothing of interest. *)
Definition emit {S} (e : Event) : M S unit := fun _ s tr => (Return tt, s, e :: tr).

Definition logging {S} (level : Level) (msg : string) : M S unit := emit (Logging level msg).
Definition print {S} (msg : string) : M S unit := emit (Print msg).
Definition time_sleep {S} (seconds : Z) : M S unit := emit (TimeSleep seconds).
Definition webbrowser_open {S} (u : string) (new : Z) : M S unit := emit (WebbrowserOpen u new).

Definition datetime_now {S} : M S Z :=
  fun env s tr => let tr' := DatetimeNow :: tr in (Return (clock (world env) tr'), s, tr').

Definition uuid4_str {S} : M S string :=
  fun env s tr => let tr' := Uuid4 :: tr in (Return (uuid4 (world env) tr'), s, tr').

Definition input {S} (prompt : string) : M S string :=
  fun env s tr => let tr' := Input prompt :: tr in (Return (stdin (world env) tr'), s, tr').

Definition requests_get {S} (u : string) (params headers : list (string * string)) : M S Response :=
  fun env s tr => let tr' := RequestsGet u params headers :: tr in (http (world env) tr', s, tr').

Definition requests_post {S} (u : string) (headers : list (string * string))
    (data : list (string * PyVal)) : M S Response :=
  fun env s tr => let tr' := RequestsPost u headers data :: tr in (http (world env) tr', s, tr').

(** [str(v)] as an f-string renders it: a [str] is itself, every other JSON
    value renders as its [repr]. *)
Definition format_value (env : Env) (v : PyVal) : string :=
  match v with
  | PStr s => s
  | _ => repr (py env) v
  end.

(** [int(v)]. *)
Definition py_int (env : Env) (v : PyVal) : Result Z :=
  match v with
  | PInt z => Return z
  | PBool b => Return (Z.b2z b)
  | PFloat q => Return (Z.quot (Qnum q) (Z.pos (Qden q)))
  | PStr s => match int_of_str (py env) s with
              | Some z => Return z
              | None => Raise ValueError
              end
  | PNone | PList _ | PDict _ => Raise TypeError
  end.

(** ** class Token *)

(** The annotations of the dataclass are not enforced: the fields filled
    from a JSON response hold whatever the response held.  [token_type] only
    ever receives its default and [issued_at] only readings of the clock. *)
Record Token : Type := {
  access_token : PyVal;
  expires_in : PyVal;
  scope : PyVal;
  refresh_token : PyVal;
  token_type : string;
  issued_at : Z
}.

Definition set_access_token (v : PyVal) (t : Token) : Token :=
  {| access_token := v; expires_in := expires_in t; scope := scope t;
     refresh_token := refresh_token t; token_type := token_type t;
     issued_at := issued_at t |}.

Definition set_expires_in (v : PyVal) (t : Token) : Token :=
  {| access_token := access_token t; expires_in := v; scope := scope t;
     refresh_token := refresh_token t; token_type := token_type t;
     issued_at := issued_at t |}.

Definition set_scope (v : PyVal) (t : Token) : Token :=
  {| access_token := access_token t; expires_in := expires_in t; scope := v;
     refresh_token := refresh_token t; token_type := token_type t;
     issued_at := issued_at t |}.

Definition set_issued_at (z : Z) (t : Token) : Token :=
  {| access_token := access_token t; expires_in := expires_in t; scope := scope t;
     refresh_token := refresh_token t; token_type := token_type t;
     issued_at := z |}.

(** The generated [__init__], called with the four keyword arguments and
    without [token_type] and [issued_at], which take their defaults. *)
Definition Token_init (env : Env) (access_token : PyVal) (expires_in : Z)
    (scope refresh_token : PyVal) : Token :=
  {| access_token := access_token; expires_in := PInt expires_in; scope := scope;
     refresh_token := refresh_token; token_type := "bearer";
     issued_at := Token_issued_at env |}.

(** [__str__] *)
Definition Token_str (env : Env) (self : Token) : string :=
  token_type self +:+ " " +:+ format_value env (access_token self).

(** [timedelta.total_seconds()] of a difference given in microseconds: the
    quotient by 10^6, correctly rounded to a float. *)
Definition total_seconds (microseconds : Z) : Q := binary64 (microseconds # 1000000).

Definition is_expired : M Token bool :=
  now <- datetime_now ;;
  self <- get ;;
  let elapsed := total_seconds (now - issued_at self) in
  limit <- lift (sub_int (expires_in self) 60) ;;
  lift (float_ge elapsed limit).

Definition refresh (response : PyVal) : M Token unit :=
  v <- lift (getitem response "access_token") ;;
  modify (set_access_token v) ;;
  v <- lift (getitem response "expires_in") ;;
  modify (set_expires_in v) ;;
  v <- lift (getitem response "scope") ;;
  modify (set_scope v) ;;
  now <- datetime_now ;;
  modify (set_issued_at now).

(** ** class PokemonGoFriendsBot *)

Definition COMMON_API_URI : string := "https://www.reddit.com/api/v1".
Definition OAUTH_API_URI : string := "https://oauth.reddit.com/api".
Definition REDIRECT_URI : string := "https://www.reddit.com/r/PokemonGoFriends".
Definition MAX_API_REQUESTS_PER_MINUTE : Z := 60.
(** The [User-Agent] literal that every request repeats. *)
Definition USER_AGENT : string :=
  "Mozilla/5.0 (Windows NT 10.0; Win64; x64; rv:100.0) Gecko/20100101 Firefox/100.0".

Record Bot : Type := {
  client_id : string;
  client_secret : string;
  message : string;
  token : option Token;
  last_comment_fullname : PyVal
}.

Definition set_token (t : option Token) (b : Bot) : Bot :=
  {| client_id := client_id b; client_secret := client_secret b; message := message b;
     token := t; last_comment_fullname := last_comment_fullname b |}.

Definition set_last_comment_fullname (v : PyVal) (b : Bot) : Bot :=
  {| client_id := client_id b; client_secret := client_secret b; message := message b;
     token := token b; last_comment_fullname := v |}.

(** [__init__]: the three arguments are the strings read from the
    configuration; an empty one fails the assertion. *)
Definition init (client_id client_secret message : string) : Result Bot :=
  if truthy (PStr client_id) && truthy (PStr client_secret) && truthy (PStr message)
  then Return {| client_id := client_id; client_secret := client_secret;
                 message := message; token := None; last_comment_fullname := PNone |}
  else Raise AssertionError.

(** Runs a method of [self.token] on the token the controller holds; the
    attribute access fails when [self.token] is [None].  The token is
    mutated in place, so its changes are kept whatever the outcome. *)
Definition with_token {A} (m : M Token A) : M Bot A :=
  fun env self tr =>
    match token self with
    | None => (Raise AttributeError, self, tr)
    | Some t => let '(r, t', tr') := m env t tr in (r, set_token (Some t') self, tr')
    end.

(** [f"{self.token}"] *)
Definition format_token (env : Env) (t : option Token) : string :=
  match t with
  | Some t => Token_str env t
  | None => "None"
  end.

Definition authorize_application : M Bot bool :=
  logging INFO "Authorizing application..." ;;
  self <- get ;;
  let u := COMMON_API_URI +:+ "/authorize" in
  state <- uuid4_str ;;
  let params := [("client_id", client_id self);
                 ("response_type", "code");
                 ("state", state);
                 ("redirect_uri", REDIRECT_URI);
                 ("duration", "permanent");
                 ("scope", "edit submit")] in
  let headers := [("User-Agent", USER_AGENT)] in
  r <- requests_get u params headers ;;
  if status_code r =? 200 then
    webbrowser_open (url r) 2 ;;
    ret true
  else ret false.

Definition authenticate_session (code : option string) (is_refresh : bool) : M Bot bool :=
  logging INFO "Initializing session..." ;;
  env <- ask ;;
  self <- get ;;
  let u := COMMON_API_URI +:+ "/access_token" in
  credentials <- lift (encode_ascii (client_id self +:+ ":" +:+ client_secret self)) ;;
  let headers := [("Authorization", "Basic " +:+ b64encode (py env) credentials);
                  ("User-Agent", USER_AGENT)] in
  data <- (if is_refresh then
             refresh_token <- with_token (t <- get ;; ret (refresh_token t)) ;;
             ret [("grant_type", PStr "refresh_token");
                  ("refresh_token", refresh_token)]
           else
             ret [("grant_type", PStr "authorization_code");
                  ("code", match code with Some c => PStr c | None => PNone end);
                  ("redirect_uri", PStr REDIRECT_URI)]) ;;
  r <- requests_post u headers data ;;
  if status_code r =? 200 then
    match json r with
    | None =>
        logging DEBUG "Could not load access token..." ;;
        ret false
    | Some r_json =>
        (if is_refresh then
           with_token (refresh r_json) ;;
           print "> Successfully refreshed authentication token."
         else
           access_token <- lift (getitem r_json "access_token") ;;
           expires_in <- lift (getitem r_json "expires_in") ;;
           expires_in <- lift (py_int env expires_in) ;;
           scope <- lift (getitem r_json "scope") ;;
           refresh_token <- lift (getitem r_json "refresh_token") ;;
           modify (set_token (Some (Token_init env access_token expires_in scope refresh_token))) ;;
           print "> Successfully obtained authentication token.") ;;
        ret true
    end
  else ret false.

Definition check_token_expiration : M Bot unit :=
  expired <- with_token is_expired ;;
  if negb expired then ret tt
  else
    authenticate_session None true ;;
    ret tt.

Definition post_comment : M Bot bool :=
  check_token_expiration ;;
  logging INFO "Posting comment..." ;;
  env <- ask ;;
  self <- get ;;
  let u := OAUTH_API_URI +:+ "/comment" in
  let data := [("api_type", PStr "json");
               ("return_rtjson", PBool true);
               ("text", PStr (message self));
               ("thing_id", PStr "t3_so87rb")] in
  let headers := [("Authorization", format_token env (token self));
                  ("User-Agent", USER_AGENT)] in
  r <- requests_post u headers data ;;
  if status_code r =? 200 then
    match json r with
    | None =>
        logging DEBUG "Could not load access token..." ;;
        ret false
    | Some r_json =>
        name <- lift (getitem r_json "name") ;;
        modify (set_last_comment_fullname name) ;;
        print "> Successfully posted comment." ;;
        ret true
    end
  else
    logging ERROR "[!] Unable to post new comment. Exiting..." ;;
    ret false.

Definition delete_comment : M Bot bool :=
  check_token_expiration ;;
  logging INFO "Deleting previous comment..." ;;
  env <- ask ;;
  self <- get ;;
  let u := OAUTH_API_URI +:+ "/del" in
  let data := [("id", last_comment_fullname self)] in
  let headers := [("Authorization", format_token env (token self));
                  ("User-Agent", USER_AGENT)] in
  r <- requests_post u headers data ;;
  if status_code r =? 200 then
    print "> Successfully deleted last comment." ;;
    ret true
  else
    logging ERROR "[!] Unable to delete latest comment. Exiting..." ;;
    ret false.

(** One pass through the body of [while True:]. *)
Inductive Control : Type := Continue | Break.

Definition run_body : M Bot Control :=
  posted <- post_comment ;;
  if negb posted then ret Break
  else
    time_sleep (60 * 15 * 1) ;;
    self <- get ;;
    if truthy (last_comment_fullname self) then
      deleted <- delete_comment ;;
      if negb deleted then ret Break
      else
        time_sleep (15 * 1 * 1) ;;
        ret Continue
    else ret Continue.

(** [while True:] unrolled at most [fuel] times: [Some tt] when the loop was
    left by [break], [None] when it is still running after [fuel] passes. *)
Fixpoint while_true (fuel : nat) (body : M Bot Control) : M Bot (option unit) :=
  match fuel with
  | O => ret None
  | S fuel' =>
      c <- body ;;
      match c with
      | Break => ret (Some tt)
      | Continue => while_true fuel' body
      end
  end.

Definition run (fuel : nat) : M Bot (option unit) :=
  logging INFO "Running..." ;;
  while_true fuel run_body.

Definition start (fuel : nat) : M Bot (option unit) :=
  authorize_application ;;
  code <- input ">>> Please enter your application code: " ;;
  authenticated <- authenticate_session (Some code) false ;;
  if authenticated then run fuel
  else ret (Some tt).

(** ** The requests the controller sends, as they appear in the trace *)

Definition credentials (self : Bot) : string :=
  client_id self +:+ ":" +:+ client_secret self.

Definition access_token_request (env : Env) (self : Bot) (data : list (string * PyVal)) : Event :=
  RequestsPost (COMMON_API_URI +:+ "/access_token")
    [("Authorization", "Basic " +:+ b64encode (py env) (credentials self));
     ("User-Agent", USER_AGENT)]
    data.

Definition authorization_code_data (code : option string) : list (string * PyVal) :=
  [("grant_type", PStr "authorization_code");
   ("code", match code with Some c => PStr c | None => PNone end);
   ("redirect_uri", PStr REDIRECT_URI)].

Definition refresh_token_data (t : Token) : list (string * PyVal) :=
  [("grant_type", PStr "refresh_token");
   ("refresh_token", refresh_token t)].

(** The headers of the two authenticated calls. *)
Definition authorization_headers (env : Env) (self : Bot) : list (string * string) :=
  [("Authorization", format_token env (token self));
   ("User-Agent", USER_AGENT)].

Definition comment_request (env : Env) (self : Bot) : Event :=
  RequestsPost (OAUTH_API_URI +:+ "/comment")
    (authorization_headers env self)
    [("api_type", PStr "json");
     ("return_rtjson", PBool true);
     ("text", PStr (message self));
     ("thing_id", PStr "t3_so87rb")].

Definition del_request (env : Env) (self : Bot) : Event :=
  RequestsPost (OAUTH_API_URI +:+ "/del")
    (authorization_headers env self)
    [("id", last_comment_fullname self)].

(** The arguments of [Token(...)] in [authenticate_session], evaluated left
    to right; the first one that raises decides the exception. *)
Definition token_of_response (env : Env) (r_json : PyVal) : Result Token :=
  match getitem r_json "access_token" with
  | Raise e => Raise e
  | Return access_token =>
      match getitem r_json "expires_in" with
      | Raise e => Raise e
      | Return expires_in =>
          match py_int env expires_in with
          | Raise e => Raise e
          | Return expires_in =>
              match getitem r_json "scope" with
              | Raise e => Raise e
              | Return scope =>
                  match getitem r_json "refresh_token" with
                  | Raise e => Raise e
                  | Return refresh_token =>
                      Return (Token_init env access_token expires_in scope refresh_token)
                  end
              end
          end
      end
  end.

(** ** Observations on traces and states *)

Definition is_comment_request (e : Event) : bool :=
  match e with
  | RequestsPost u _ _ => String.eqb u (OAUTH_API_URI +:+ "/comment")
  | _ => false
  end.

Definition is_del_request (e : Event) : bool :=
  match e with
  | RequestsPost u _ _ => String.eqb u (OAUTH_API_URI +:+ "/del")
  | _ => false
  end.

(** The calls made while a session is set up or refreshed. *)
Definition is_session_event (e : Event) : bool :=
  match e with
  | Logging _ _ | Print _ | DatetimeNow => true
  | RequestsPost u _ _ => String.eqb u (COMMON_API_URI +:+ "/access_token")
  | _ => false
  end.

(** [b'] differs from [b] in the field [token] at most. *)
Definition same_but_token (b b' : Bot) : Prop := b' = set_token (token b') b.

(** Whatever its outcome, [m] changes the state within [frame] and adds
    to the trace only events that satisfy [allowed]. *)
Definition guarantees {S A} (frame : S -> S -> Prop) (allowed : Event -> Prop)
    (m : M S A) : Prop :=
  forall env s tr,
    let '(_, s', tr') := m env s tr in
    frame s s' /\ exists new, tr' = new ++ tr /\ Forall allowed new.

(** ** The module body *)

(** Executing the module: the class statement of [Token] evaluates
    [datetime.now()] once, for the default of [issued_at]; the main block
    then builds the controller and starts it.  Reading the three settings
    from the configuration file is left out: they are arguments here. *)
Definition program (b : Builtins) (w : World) (client_id client_secret message : string)
    (fuel : nat) : Result (option unit) * option Bot * Trace :=
  let tr0 := [DatetimeNow] in
  let env := {| py := b; world := w; Token_issued_at := clock w tr0 |} in
  match init client_id client_secret message with
  | Raise e => (Raise e, None, tr0)
  | Return bot => let '(r, bot', tr) := start fuel env bot tr0 in (r, Some bot', tr)
  end.

(** ** Scripted environments for concrete runs *)

(** Stand-ins for the library functions, enough to run the program. *)
Definition plain_builtins : Builtins :=
  {| repr := fun _ => "<repr>";
     int_of_str := fun _ => None;
     b64encode := fun s => "b64(" +:+ s +:+ ")" |}.

Definition reply (status : Z) (body : option PyVal) : Response :=
  {| status_code := status; url := "https://www.reddit.com/login/"; json := body |}.

(** A world whose clock reads [now], whose token endpoint always answers
    [token_reply], whose comment endpoint answers its [n]-th request with
    [comment_reply n], and whose other endpoints answer 200 without a JSON
    body. *)
Definition scripted_world (now : Trace -> Z) (token_reply : Response)
    (comment_reply : nat -> Response) : World :=
  {| http := fun tr =>
       match tr with
       | RequestsPost u _ _ :: _ =>
           if String.eqb u (COMMON_API_URI +:+ "/access_token") then Return token_reply
           else if String.eqb u (OAUTH_API_URI +:+ "/comment")
                then Return (comment_reply (length (filter is_comment_request tr)))
                else Return (reply 200 None)
       | _ => Return (reply 200 None)
       end;
     clock := now;
     uuid4 := fun _ => "123e4567-e89b-12d3-a456-426614174000";
     stdin := fun _ => "c" |}.

Definition scripted_env (now : Trace -> Z) (token_reply : Response)
    (comment_reply : nat -> Response) : Env :=
  {| py := plain_builtins;
     world := scripted_world now token_reply comment_reply;
     Token_issued_at := 0 |}.

Definition token_json : PyVal :=
  PDict (list_to_map [("access_token", PStr "A"); ("expires_in", PInt 3600);
                      ("scope", PStr "edit submit"); ("refresh_token", PStr "R")]).

Definition comment_json (name : PyVal) : PyVal := PDict (list_to_map [("name", name)]).

Definition fresh_bot : Bot :=
  {| client_id := "id"; client_secret := "secret"; message := "hello";
     token := None; last_comment_fullname := PNone |}.

Definition token_A : Token :=
  {| access_token := PStr "A"; expires_in := PInt 3600; scope := PStr "edit submit";
     refresh_token := PStr "R"; token_type := "bearer"; issued_at := 0 |}.

Definition active_bot : Bot := set_token (Some token_A) fresh_bot.

(** The end-to-end scenario: the first post succeeds and is named
    [t1_abc], every later post is answered with status 500. *)
Definition first_post_only (n : nat) : Response :=
  match n with
  | 1%nat => reply 200 (Some (comment_json (PStr "t1_abc")))
  | _ => reply 500 None
  end.

(** A comment endpoint that answers 200 with the JSON object [{}]. *)
Definition empty_object_env : Env :=
  scripted_env (fun _ => 0) (reply 200 (Some token_json))
    (fun _ => reply 200 (Some (PDict ∅))).

(** A comment endpoint that answers 200 with an empty fullname. *)
Definition empty_name_env : Env :=
  scripted_env (fun _ => 0) (reply 200 (Some token_json))
    (fun _ => reply 200 (Some (comment_json (PStr EmptyString)))).

(** The scenario of the specification, with the clock at the issue time. *)
Definition scenario_env : Env :=
  scripted_env (fun _ => 0) (reply 200 (Some token_json)) first_post_only.

(** A clock that advances one second with every call. *)
Definition ticking (tr : Trace) : Z := Z.of_nat (length tr) * 1000000.

(** A token endpoint whose answer has status 200 and a body that is not
    JSON. *)
Definition not_json_env : Env :=
  scripted_env (fun _ => 0) (reply 200 None) first_post_only.

(** One hour after [token_A] was issued, with a token endpoint that is
    down. *)
Definition expired_env : Env :=
  scripted_env (fun _ => 3600000000) (reply 503 None) first_post_only.


Definition refresh_object : gmap string PyVal :=
  list_to_map [("access_token", PStr "B"); ("expires_in", PInt 7200);
               ("scope", PStr "edit")].

Definition ticking_world : World :=
  scripted_world ticking (reply 200 (Some token_json)) first_post_only.

(** Every post succeeds and is named [t1_abc], every delete succeeds and the
    clock stands at the issue time. *)
Definition steady_env : Env :=
  scripted_env (fun _ => 0) (reply 200 (Some token_json))
    (fun _ => reply 200 (Some (comment_json (PStr "t1_abc")))).

(** ** Further observations *)

(** Whether [s.encode('ascii')] succeeds. *)
Definition is_ascii (s : string) : bool :=
  forallb (fun c => (nat_of_ascii c <? 128)%nat) (list_ascii_of_string s).

(** [b'] has the settings [b] was built with. *)
Definition same_config (b b' : Bot) : Prop :=
  client_id b' = client_id b
  /\ client_secret b' = client_secret b
  /\ message b' = message b.

(** The calls the posting loop may make: no GET, no browser, no console
    input, no UUID. *)
Definition is_loop_event (e : Event) : bool :=
  match e with
  | Logging _ _ | Print _ | DatetimeNow | TimeSleep _ => true
  | RequestsPost u _ _ =>
      String.eqb u (COMMON_API_URI +:+ "/access_token")
      || String.eqb u (OAUTH_API_URI +:+ "/comment")
      || String.eqb u (OAUTH_API_URI +:+ "/del")
  | _ => false
  end.

(** A request to the delete endpoint names exactly one, truthy, [id]. *)
Definition del_id_truthy (e : Event) : bool :=
  match e with
  | RequestsPost u _ data =>
      if String.eqb u (OAUTH_API_URI +:+ "/del") then
        match data with
        | [(k, v)] => String.eqb k "id" && truthy v
        | _ => false
        end
      else true
  | _ => true
  end.

Definition is_object (v : PyVal) : bool :=
  match v with
  | PDict _ => true
  | _ => false
  end.

(** A controller whose client id holds a character outside ASCII (code
    233). *)
Definition accented_bot : Bot :=
  {| client_id := String (ascii_of_nat 233) "id"; client_secret := "secret";
     message := "hello"; token := None; last_comment_fullname := PNone |}.


(** The network is down: every request raises. *)
Definition offline_env : Env :=
  {| py := plain_builtins;
     world := {| http := fun _ => Raise RequestException;
                 clock := fun _ => 0;
                 uuid4 := fun _ => "123e4567-e89b-12d3-a456-426614174000";
                 stdin := fun _ => "c" |};
     Token_issued_at := 0 |}.

(** A refresh answer without ["scope"]. *)
Definition scopeless_object : gmap string PyVal :=
  list_to_map [("access_token", PStr "B"); ("expires_in", PInt 7200)].

(** A refresh answer whose ["expires_in"] is a JSON string. *)
Definition quoted_expiry_object : gmap string PyVal :=
  list_to_map [("access_token", PStr "B"); ("expires_in", PStr "7200");
               ("scope", PStr "edit")].

(** The values Python's [-] and [>=] accept next to a number. *)
Definition is_number (v : PyVal) : bool :=
  match v with
  | PInt _ | PBool _ | PFloat _ => true
  | _ => false
  end.

(** One hour after the class statement, with a token endpoint that grants a
    one-hour token. *)
Definition late_env : Env :=
  scripted_env (fun _ => 3600000000) (reply 200 (Some token_json)) first_post_only.

(** One hour after [token_A] was issued, with a token endpoint that answers
    a refresh without ["scope"]. *)
Definition scopeless_env : Env :=
  scripted_env (fun _ => 3600000000) (reply 200 (Some (PDict scopeless_object)))
    first_post_only.

(** One hour after [token_A] was issued, with a token endpoint that answers
    a complete refresh. *)
Definition refreshing_env : Env :=
  scripted_env (fun _ => 3600000000) (reply 200 (Some (PDict refresh_object)))
    first_post_only.


(** A comment endpoint that answers 200 with a JSON array. *)
Definition array_env : Env :=
  scripted_env (fun _ => 0) (reply 200 (Some token_json))
    (fun _ => reply 200 (Some (PList [PStr "t1_abc"]))).



(** A token whose [expires_in] is the float 7200.1, and a clock 7140.1
    seconds after its issue. *)
Definition float_token : Token :=
  {| access_token := PStr "A"; expires_in := PFloat (binary64 (72001 # 10));
     scope := PStr "edit submit"; refresh_token := PStr "R"; token_type := "bearer";
     issued_at := 0 |}.

Definition float_expiry_env : Env :=
  scripted_env (fun _ => 7140100000) (reply 200 (Some token_json)) first_post_only.
(** * Properties *)

#[local] Arguments String.append : simpl never.

Ltac unfold_monad :=
  unfold logging, print, time_sleep, webbrowser_open;
  unfold bind, ret, lift, get, modify, ask, emit, datetime_now, uuid4_str, input,
    requests_get, requests_post;
  cbv beta iota zeta.

Lemma set_token_same (b : Bot) (t : Token) : token b = Some t -> set_token (Some t) b = b.
Proof. destruct b; simpl; intros ->; reflexivity. Qed.

(** ** Rounding to binary64 *)

Lemma round_half_even_nearest (a b k : Z) :
  0 < b -> Z.abs (a - round_half_even a b * b) <= Z.abs (a - k * b).
Proof.
  intros Hb. unfold round_half_even.
  pose proof (Z.div_mod a b ltac:(lia)) as Hdiv.
  pose proof (Z.mod_pos_bound a b Hb) as Hmod.
  set (f := a / b) in *. set (r := a mod b) in *.
  assert (Hk : k <= f \/ f + 1 <= k) by lia.
  destruct (Z.compare_spec (2 * r) b) as [Heq|Hlt|Hgt];
    [destruct (Z.even f)| |]; destruct Hk as [Hk|Hk]; nia.
Qed.

Lemma round_half_even_le (a b hi : Z) : 0 < b -> a <= hi * b -> round_half_even a b <= hi.
Proof.
  intros Hb Ha. pose proof (round_half_even_nearest a b hi Hb) as Hn. nia.
Qed.

Lemma round_half_even_ge (a b lo : Z) : 0 < b -> lo * b <= a -> lo <= round_half_even a b.
Proof.
  intros Hb Ha. pose proof (round_half_even_nearest a b lo Hb) as Hn. nia.
Qed.

Lemma magnitude_bound (a b : Z) :
  0 < b ->
  let j := Z.max 0 (Z.log2 (Z.abs a / b) - 52) in
  0 <= j
  /\ Z.abs a < 2 ^ 53 * (b * 2 ^ j)
  /\ (0 < j -> 2 ^ 52 * (b * 2 ^ j) <= Z.abs a).
Proof.
  intros Hb j.
  pose proof (Z.div_mod (Z.abs a) b ltac:(lia)) as Hdiv.
  pose proof (Z.mod_pos_bound (Z.abs a) b Hb) as Hmod.
  set (F := Z.abs a / b) in *.
  assert (HF : 0 <= F) by (apply Z.div_pos; lia).
  assert (Hj : 0 <= j) by lia.
  split; [exact Hj|].
  assert (Hpow : 0 < 2 ^ j) by (apply Z.pow_pos_nonneg; lia).
  destruct (Z.eq_dec F 0) as [HF0|HF0].
  - assert (j = 0) by (subst j; rewrite HF0; simpl; lia).
    assert (Hone : 2 ^ j = 1) by (rewrite H; reflexivity).
    split; [|lia]. rewrite Hone. lia.
  - assert (HFpos : 0 < F) by lia.
    destruct (Z.log2_spec F HFpos) as [Hlo Hhi].
    split.
    + assert (Hle : 2 ^ Z.succ (Z.log2 F) <= 2 ^ (53 + j)).
      { apply Z.pow_le_mono_r; lia. }
      rewrite Z.pow_add_r in Hle by lia. nia.
    + intros Hjpos.
      assert (Hjeq : Z.log2 F = 52 + j) by lia.
      rewrite Hjeq, Z.pow_add_r in Hlo by lia. nia.
Qed.

Lemma round_53_grid (a b : Z) : 0 < b -> in_grid (round_53 a b).
Proof.
  intros Hb. unfold round_53.
  destruct (magnitude_bound a b Hb) as [Hj [Hup _]].
  set (j := Z.max 0 (Z.log2 (Z.abs a / b) - 52)) in *.
  assert (Hpow : 0 < 2 ^ j) by (apply Z.pow_pos_nonneg; lia).
  exists (round_half_even a (b * 2 ^ j)), j.
  split; [exact Hj|]. split; [|reflexivity].
  assert (HB : 0 < b * 2 ^ j) by nia.
  pose proof (round_half_even_le a (b * 2 ^ j) (2 ^ 53) HB ltac:(lia)).
  pose proof (round_half_even_ge a (b * 2 ^ j) (- 2 ^ 53) HB ltac:(lia)).
  lia.
Qed.

Lemma round_53_nearest (a b g : Z) :
  0 < b -> in_grid g -> Z.abs (a - round_53 a b * b) <= Z.abs (a - g * b).
Proof.
  intros Hb [m' [j' [Hj' [Hm' ->]]]]. unfold round_53.
  destruct (magnitude_bound a b Hb) as [Hj [_ Hlow]].
  set (j := Z.max 0 (Z.log2 (Z.abs a / b) - 52)) in *.
  assert (Hpow : 0 < 2 ^ j) by (apply Z.pow_pos_nonneg; lia).
  assert (HB : 0 < b * 2 ^ j) by nia.
  set (B := b * 2 ^ j) in *.
  set (m := round_half_even a B).
  replace (m * 2 ^ j * b) with (m * B) by (unfold B; ring).
  destruct (Z_le_gt_dec j j') as [Hle|Hgt].
  - replace (m' * 2 ^ j' * b) with (m' * 2 ^ (j' - j) * B).
    + apply round_half_even_nearest. exact HB.
    + unfold B. replace j' with ((j' - j) + j) at 2 by lia.
      rewrite Z.pow_add_r by lia. ring.
  - specialize (Hlow ltac:(lia)). fold B in Hlow.
    assert (Hsmall : Z.abs (m' * 2 ^ j' * b) <= 2 ^ 52 * B).
    { assert (Hp : 2 * 2 ^ j' <= 2 ^ j).
      { replace j with (1 + (j - 1)) by lia. rewrite Z.pow_add_r by lia.
        change (2 ^ 1) with 2.
        assert (2 ^ j' <= 2 ^ (j - 1)) by (apply Z.pow_le_mono_r; lia). lia. }
      assert (Hp' : 0 < 2 ^ j') by (apply Z.pow_pos_nonneg; lia).
      unfold B. rewrite !Z.abs_mul.
      rewrite (Z.abs_eq (2 ^ j')) by lia. rewrite (Z.abs_eq b) by lia.
      change (2 ^ 53) with (2 * 2 ^ 52) in Hm'.
      assert (Hc : 0 < 2 ^ 52) by reflexivity.
      set (c := 2 ^ 52) in *. set (p := 2 ^ j') in *. set (P := 2 ^ j) in *.
      assert (H1 : Z.abs m' * p <= (2 * c) * p) by (apply Z.mul_le_mono_nonneg_r; lia).
      assert (H2 : c * (2 * p) <= c * P) by (apply Z.mul_le_mono_nonneg_l; lia).
      assert (H3 : Z.abs m' * p * b <= c * P * b) by (apply Z.mul_le_mono_nonneg_r; lia).
      lia. }
    destruct (Z_le_gt_dec 0 a) as [Hpos|Hneg].
    + pose proof (round_half_even_nearest a B (2 ^ 52) HB). unfold m. lia.
    + pose proof (round_half_even_nearest a B (- 2 ^ 52) HB). unfold m. lia.
Qed.

Lemma round_53_lt (a b g h : Z) :
  0 < b -> in_grid g -> g < h -> 2 * a < (g + h) * b -> round_53 a b < h.
Proof.
  intros Hb Hg Hgh Ha.
  pose proof (round_53_nearest a b g Hb Hg) as Hn.
  destruct (Z_lt_ge_dec (round_53 a b) h) as [Hlt|Hge]; [exact Hlt|exfalso].
  assert (h * b <= round_53 a b * b) by nia.
  assert (g * b < h * b) by nia.
  lia.
Qed.

Lemma round_53_ge (a b g : Z) :
  0 < b -> in_grid g -> g * b <= a -> g <= round_53 a b.
Proof.
  intros Hb Hg Ha.
  pose proof (round_53_nearest a b g Hb Hg) as Hn.
  destruct (Z_le_gt_dec g (round_53 a b)) as [Hle|Hgt]; [exact Hle|exfalso].
  assert (round_53 a b * b < g * b) by nia.
  lia.
Qed.

Lemma round_53_monotone (a1 b1 a2 b2 : Z) :
  0 < b1 -> 0 < b2 -> a1 * b2 < a2 * b1 -> round_53 a1 b1 <= round_53 a2 b2.
Proof.
  intros Hb1 Hb2 Hlt.
  pose proof (round_53_nearest a1 b1 _ Hb1 (round_53_grid a2 b2 Hb2)) as H1.
  pose proof (round_53_nearest a2 b2 _ Hb2 (round_53_grid a1 b1 Hb1)) as H2.
  set (R1 := round_53 a1 b1) in *. set (R2 := round_53 a2 b2) in *.
  destruct (Z_le_gt_dec R1 R2) as [Hle|Hgt]; [exact Hle|exfalso].
  assert (Hd1 : R2 * b1 < R1 * b1) by nia.
  assert (Hd2 : R2 * b2 < R1 * b2) by nia.
  assert (Hm1 : (R1 + R2) * b1 <= 2 * a1) by lia.
  assert (Hm2 : 2 * a2 <= (R1 + R2) * b2) by lia.
  assert (Hx : (R1 + R2) * b1 * b2 <= 2 * a1 * b2) by (apply Z.mul_le_mono_nonneg_r; lia).
  assert (Hy : 2 * a2 * b1 <= (R1 + R2) * b2 * b1) by (apply Z.mul_le_mono_nonneg_r; lia).
  nia.
Qed.

Lemma unit_pos : Z.pos (2 ^ 1074)%positive = 2 ^ 1074.
Proof. apply Pos2Z.inj_pow. Qed.

Lemma binary64_compat (q1 q2 : Q) : q1 == q2 -> binary64 q1 = binary64 q2.
Proof. intros H. unfold binary64. rewrite (Qred_complete q1 q2 H). reflexivity. Qed.

Lemma binary64_monotone (q1 q2 : Q) : (q1 <= q2)%Q -> (binary64 q1 <= binary64 q2)%Q.
Proof.
  intros Hle. apply Qle_lteq in Hle. destruct Hle as [Hlt|Heq].
  - unfold binary64.
    rewrite <- (Qred_correct q1), <- (Qred_correct q2) in Hlt.
    destruct (Qred q1) as [n1 d1], (Qred q2) as [n2 d2].
    unfold Qlt in Hlt. unfold Qle. cbn [Qnum Qden] in *.
    assert (HU : 0 < 2 ^ 1074) by (apply Z.pow_pos_nonneg; lia).
    apply Z.mul_le_mono_nonneg_r; [lia|].
    apply round_53_monotone; [lia|lia|].
    set (U := 2 ^ 1074) in *. nia.
  - rewrite (binary64_compat q1 q2 Heq). apply Qle_refl.
Qed.

Lemma binary64_exact (f : Q) (g : Z) :
  in_grid g -> f == g # (2 ^ 1074)%positive -> binary64 f = g # (2 ^ 1074)%positive.
Proof.
  intros Hg Hf. unfold binary64.
  rewrite <- (Qred_correct f) in Hf.
  destruct (Qred f) as [n d]. unfold Qeq in Hf. cbn [Qnum Qden] in *.
  rewrite unit_pos in Hf.
  f_equal.
  pose proof (round_53_nearest (n * 2 ^ 1074) (Z.pos d) g ltac:(lia) Hg) as Hn.
  assert (HU : 0 < 2 ^ 1074) by (apply Z.pow_pos_nonneg; lia).
  set (U := 2 ^ 1074) in *. set (R := round_53 (n * U) (Z.pos d)) in *.
  nia.
Qed.

Lemma integer_in_grid (n : Z) : Z.abs n <= 2 ^ 53 -> in_grid (n * 2 ^ 1074).
Proof. intros Hn. exists n, 1074. split; [lia|]. split; [exact Hn|reflexivity]. Qed.

Lemma binary64_integer (n : Z) : Z.abs n <= 2 ^ 53 -> binary64 (inject_Z n) == inject_Z n.
Proof.
  intros Hn.
  assert (Heq : inject_Z n == (n * 2 ^ 1074) # (2 ^ 1074)%positive).
  { unfold Qeq, inject_Z. cbn [Qnum Qden]. rewrite unit_pos. ring. }
  rewrite (binary64_exact _ _ (integer_in_grid n Hn) Heq). symmetry. exact Heq.
Qed.

Lemma total_seconds_ge (n d : Z) :
  - 2 ^ 34 < n <= 2 ^ 34 ->
  Qle_bool (inject_Z n) (total_seconds d) = true <-> n * 1000000 <= d.
Proof.
  intros Hn. rewrite Qle_bool_iff. unfold total_seconds, binary64.
  pose proof (Qred_correct (d # 1000000)) as Hred.
  destruct (Qred (d # 1000000)) as [nx dx].
  unfold Qeq in Hred. cbn [Qnum Qden] in Hred.
  unfold Qle, inject_Z. cbn [Qnum Qden]. rewrite unit_pos.
  assert (HU : 2 ^ 1074 = 2 ^ 19 * 2 ^ 1055) by (rewrite <- Z.pow_add_r by lia; reflexivity).
  assert (HV : 0 < 2 ^ 1055) by (apply Z.pow_pos_nonneg; lia).
  set (V := 2 ^ 1055) in *. rewrite HU.
  set (R := round_53 (nx * (2 ^ 19 * V)) (Z.pos dx)).
  rewrite Z.mul_1_r.
  split.
  - intros Hle.
    destruct (Z_le_gt_dec (n * 1000000) d) as [Hok|Hbad]; [exact Hok|exfalso].
    assert (Hlt : R < n * (2 ^ 19 * V)).
    { apply (round_53_lt _ _ ((n * 2 ^ 19 - 1) * V)); [lia| |nia|].
      - exists (n * 2 ^ 19 - 1), 1055. split; [lia|]. split; [lia|reflexivity].
      - assert (Hd : d * Z.pos dx <= (n * 1000000 - 1) * Z.pos dx)
          by (apply Z.mul_le_mono_nonneg_r; lia).
        assert (Hs : 2 * (nx * 1000000) * (2 ^ 19 * V)
                     < 1000000 * (((n * 2 ^ 19 - 1) * V + n * (2 ^ 19 * V)) * Z.pos dx)).
        { rewrite Hred. change (2 ^ 19) with 524288 in *. nia. }
        nia. }
    lia.
  - intros Hle.
    assert (Hge : n * (2 ^ 19 * V) <= R).
    { apply round_53_ge; [lia| |].
      - rewrite <- HU. apply integer_in_grid. lia.
      - assert (Hd : n * 1000000 * Z.pos dx <= d * Z.pos dx)
          by (apply Z.mul_le_mono_nonneg_r; lia).
        rewrite <- Hred in Hd. change (2 ^ 19) with 524288. nia. }
    lia.
Qed.

#[local] Arguments binary64 : simpl never.

(** ** What [authenticate_session] does, case by case *)

Section AuthenticateSession.
Variables (env : Env) (bot : Bot) (tr : Trace).
Hypothesis ascii_credentials : encode_ascii (credentials bot) = Return (credentials bot).

Let tr0 : Trace := Logging INFO "Initializing session..." :: tr.

Lemma authenticate_session_exchange (code : option string) :
  let tr1 := access_token_request env bot (authorization_code_data code) :: tr0 in
  authenticate_session code false env bot tr =
    match http (world env) tr1 with
    | Raise e => (Raise e, bot, tr1)
    | Return r =>
        if status_code r =? 200 then
          match json r with
          | None => (Return false, bot, Logging DEBUG "Could not load access token..." :: tr1)
          | Some r_json =>
              match token_of_response env r_json with
              | Raise e => (Raise e, bot, tr1)
              | Return t =>
                  (Return true, set_token (Some t) bot,
                   Print "> Successfully obtained authentication token." :: tr1)
              end
          end
        else (Return false, bot, tr1)
    end.
Proof.
  intros tr1. unfold authenticate_session. unfold_monad.
  fold (credentials bot). rewrite ascii_credentials. cbv beta iota.
  change (RequestsPost _ _ _ :: _) with tr1.
  destruct (http (world env) tr1) as [r|e]; [|reflexivity].
  destruct (status_code r =? 200); [|reflexivity].
  destruct (json r) as [r_json|]; [|reflexivity].
  unfold token_of_response.
  destruct (getitem r_json "access_token"); [|reflexivity].
  destruct (getitem r_json "expires_in") as [e|]; [|reflexivity].
  destruct (py_int env e); [|reflexivity].
  destruct (getitem r_json "scope"); [|reflexivity].
  destruct (getitem r_json "refresh_token"); reflexivity.
Qed.

Lemma authenticate_session_refresh (code : option string) (t : Token) :
  token bot = Some t ->
  let tr1 := access_token_request env bot (refresh_token_data t) :: tr0 in
  authenticate_session code true env bot tr =
    match http (world env) tr1 with
    | Raise e => (Raise e, bot, tr1)
    | Return r =>
        if status_code r =? 200 then
          match json r with
          | None => (Return false, bot, Logging DEBUG "Could not load access token..." :: tr1)
          | Some r_json =>
              match refresh r_json env t tr1 with
              | (Raise e, t', tr2) => (Raise e, set_token (Some t') bot, tr2)
              | (Return _, t', tr2) =>
                  (Return true, set_token (Some t') bot,
                   Print "> Successfully refreshed authentication token." :: tr2)
              end
          end
        else (Return false, bot, tr1)
    end.
Proof.
  intros Ht tr1. unfold authenticate_session, with_token. unfold_monad.
  fold (credentials bot). rewrite ascii_credentials. cbv beta iota.
  rewrite Ht. cbv beta iota. rewrite (set_token_same bot t Ht).
  change (RequestsPost _ _ _ :: _) with tr1.
  destruct (http (world env) tr1) as [r|e]; [|reflexivity].
  destruct (status_code r =? 200); [|reflexivity].
  destruct (json r) as [r_json|]; [|reflexivity].
  rewrite Ht.
  destruct (refresh r_json env t tr1) as [[[[]|e] t'] tr2]; reflexivity.
Qed.

Lemma authenticate_session_refresh_no_token (code : option string) :
  token bot = None ->
  authenticate_session code true env bot tr = (Raise AttributeError, bot, tr0).
Proof.
  intros Ht. unfold authenticate_session, with_token. unfold_monad.
  fold (credentials bot). rewrite ascii_credentials. cbv beta iota.
  rewrite Ht. reflexivity.
Qed.
End AuthenticateSession.

Lemma encode_ascii_cases (s : string) :
  encode_ascii s = Return s \/ encode_ascii s = Raise UnicodeEncodeError.
Proof. unfold encode_ascii. destruct (forallb _ _); auto. Qed.

Lemma authenticate_session_not_ascii (env : Env) (bot : Bot) (tr : Trace)
    (code : option string) (is_refresh : bool) (e : Exn) :
  encode_ascii (credentials bot) = Raise e ->
  authenticate_session code is_refresh env bot tr =
    (Raise e, bot, Logging INFO "Initializing session..." :: tr).
Proof.
  intros He. unfold authenticate_session. unfold_monad.
  fold (credentials bot). rewrite He. reflexivity.
Qed.

(** ** The guard and the two authenticated calls, case by case *)

Lemma is_expired_reads_clock (env : Env) (t : Token) (tr : Trace) :
  exists r, is_expired env t tr = (r, t, DatetimeNow :: tr).
Proof.
  unfold is_expired. unfold_monad.
  destruct (sub_int (expires_in t) 60) as [limit|e]; cbv beta iota; eauto.
Qed.

Lemma check_token_expiration_cases (env : Env) (bot : Bot) (tr : Trace) (t : Token) :
  token bot = Some t ->
  check_token_expiration env bot tr =
    match is_expired env t tr with
    | (Raise e, _, tr1) => (Raise e, bot, tr1)
    | (Return false, _, tr1) => (Return tt, bot, tr1)
    | (Return true, _, tr1) =>
        match authenticate_session None true env bot tr1 with
        | (Return _, bot2, tr2) => (Return tt, bot2, tr2)
        | (Raise e, bot2, tr2) => (Raise e, bot2, tr2)
        end
    end.
Proof.
  intros Ht. unfold check_token_expiration, with_token.
  unfold bind at 1. rewrite Ht.
  destruct (is_expired_reads_clock env t tr) as [r Hr]. rewrite Hr.
  rewrite (set_token_same bot t Ht).
  destruct r as [[|]|e]; reflexivity.
Qed.

Lemma check_token_expiration_no_token (env : Env) (bot : Bot) (tr : Trace) :
  token bot = None ->
  check_token_expiration env bot tr = (Raise AttributeError, bot, tr).
Proof.
  intros Ht. unfold check_token_expiration, with_token. unfold bind. rewrite Ht. reflexivity.
Qed.

Lemma post_comment_cases (env : Env) (bot : Bot) (tr : Trace) :
  post_comment env bot tr =
    match check_token_expiration env bot tr with
    | (Raise e, b0, t0) => (Raise e, b0, t0)
    | (Return _, b0, t0) =>
        let tr1 := comment_request env b0 :: Logging INFO "Posting comment..." :: t0 in
        match http (world env) tr1 with
        | Raise e => (Raise e, b0, tr1)
        | Return r =>
            if status_code r =? 200 then
              match json r with
              | None => (Return false, b0, Logging DEBUG "Could not load access token..." :: tr1)
              | Some r_json =>
                  match getitem r_json "name" with
                  | Raise e => (Raise e, b0, tr1)
                  | Return name =>
                      (Return true, set_last_comment_fullname name b0,
                       Print "> Successfully posted comment." :: tr1)
                  end
              end
            else
              (Return false, b0,
               Logging ERROR "[!] Unable to post new comment. Exiting..." :: tr1)
        end
    end.
Proof.
  unfold post_comment. unfold bind at 1.
  destruct (check_token_expiration env bot tr) as [[[[]|e] b0] t0]; [|reflexivity].
  unfold_monad.
  change (RequestsPost _ _ _) with (comment_request env b0).
  destruct (http (world env) _) as [r|e]; [|reflexivity].
  destruct (status_code r =? 200); [|reflexivity].
  destruct (json r) as [r_json|]; [|reflexivity].
  destruct (getitem r_json "name"); reflexivity.
Qed.

Lemma delete_comment_cases (env : Env) (bot : Bot) (tr : Trace) :
  delete_comment env bot tr =
    match check_token_expiration env bot tr with
    | (Raise e, b0, t0) => (Raise e, b0, t0)
    | (Return _, b0, t0) =>
        let tr1 := del_request env b0 :: Logging INFO "Deleting previous comment..." :: t0 in
        match http (world env) tr1 with
        | Raise e => (Raise e, b0, tr1)
        | Return r =>
            if status_code r =? 200 then
              (Return true, b0, Print "> Successfully deleted last comment." :: tr1)
            else
              (Return false, b0,
               Logging ERROR "[!] Unable to delete latest comment. Exiting..." :: tr1)
        end
    end.
Proof.
  unfold delete_comment. unfold bind at 1.
  destruct (check_token_expiration env bot tr) as [[[[]|e] b0] t0]; [|reflexivity].
  unfold_monad.
  change (RequestsPost _ _ _) with (del_request env b0).
  destruct (http (world env) _) as [r|e]; [|reflexivity].
  destruct (status_code r =? 200); reflexivity.
Qed.

(** ** Frames: what a computation may change and which calls it may make *)

Section Guarantees.
Context {S : Type} (frame : S -> S -> Prop) (allowed : Event -> Prop).
Hypothesis frame_refl : forall s, frame s s.
Hypothesis frame_trans : forall s1 s2 s3, frame s1 s2 -> frame s2 s3 -> frame s1 s3.

Lemma guarantees_quiet {A} (m : M S A) :
  (forall env s tr, exists r, m env s tr = (r, s, tr)) -> guarantees frame allowed m.
Proof.
  intros H env s tr. destruct (H env s tr) as [r ->].
  split; [apply frame_refl|]. exists []. split; [reflexivity|constructor].
Qed.

Lemma guarantees_ret {A} (a : A) : guarantees frame allowed (ret a).
Proof. apply guarantees_quiet; intros; eexists; reflexivity. Qed.

Lemma guarantees_lift {A} (r : Result A) : guarantees frame allowed (lift r).
Proof. apply guarantees_quiet; intros; eexists; reflexivity. Qed.

Lemma guarantees_get : guarantees frame allowed get.
Proof. apply guarantees_quiet; intros; eexists; reflexivity. Qed.

Lemma guarantees_ask : guarantees frame allowed ask.
Proof. apply guarantees_quiet; intros; eexists; reflexivity. Qed.

Lemma guarantees_modify (f : S -> S) :
  (forall s, frame s (f s)) -> guarantees frame allowed (modify f).
Proof.
  intros Hf env s tr. split; [apply Hf|]. exists []. split; [reflexivity|constructor].
Qed.

Lemma guarantees_call {A} (e : Event) (answer : Env -> Trace -> Result A) :
  allowed e ->
  guarantees frame allowed (fun env s tr => (answer env (e :: tr), s, e :: tr)).
Proof.
  intros He env s tr. split; [apply frame_refl|].
  exists [e]. split; [reflexivity|]. constructor; [exact He|constructor].
Qed.

Lemma guarantees_emit (e : Event) : allowed e -> guarantees frame allowed (emit e).
Proof. intros He. exact (guarantees_call e (fun _ _ => Return tt) He). Qed.

Lemma guarantees_datetime_now : allowed DatetimeNow -> guarantees frame allowed datetime_now.
Proof.
  intros He. exact (guarantees_call DatetimeNow (fun env tr => Return (clock (world env) tr)) He).
Qed.

Lemma guarantees_requests_post u headers data :
  allowed (RequestsPost u headers data) ->
  guarantees frame allowed (requests_post u headers data).
Proof.
  intros He. exact (guarantees_call _ (fun env tr => http (world env) tr) He).
Qed.

Lemma guarantees_bind {A B} (m : M S A) (k : A -> M S B) :
  guarantees frame allowed m ->
  (forall a, guarantees frame allowed (k a)) ->
  guarantees frame allowed (bind m k).
Proof.
  intros Hm Hk env s tr. unfold bind.
  specialize (Hm env s tr).
  destruct (m env s tr) as [[[a|e] s1] tr1]; [|exact Hm].
  destruct Hm as [Hf1 [new1 [-> Hall1]]].
  specialize (Hk a env s1 (new1 ++ tr)).
  destruct (k a env s1 (new1 ++ tr)) as [[r s2] tr2].
  destruct Hk as [Hf2 [new2 [-> Hall2]]].
  split; [eapply frame_trans; eassumption|].
  exists (new2 ++ new1). split; [apply app_assoc|].
  apply Forall_app; split; assumption.
Qed.
End Guarantees.

Lemma guarantees_with_token {A} (allowed : Event -> Prop) (m : M Token A) :
  guarantees (fun _ _ => True) allowed m ->
  guarantees same_but_token allowed (with_token m).
Proof.
  intros Hm env bot tr. unfold with_token.
  destruct (token bot) as [t|] eqn:Ht.
  - specialize (Hm env t tr). destruct (m env t tr) as [[r t'] tr'].
    destruct Hm as [_ Hnew]. split; [reflexivity|exact Hnew].
  - split; [|exists []; split; [reflexivity|constructor]].
    unfold same_but_token. rewrite Ht. destruct bot; simpl in *; subst; reflexivity.
Qed.

Lemma same_but_token_refl (b : Bot) : same_but_token b b.
Proof. unfold same_but_token. destruct b; reflexivity. Qed.

Lemma same_but_token_trans (b1 b2 b3 : Bot) :
  same_but_token b1 b2 -> same_but_token b2 b3 -> same_but_token b1 b3.
Proof. unfold same_but_token. intros H12 H23. rewrite H23 at 1. rewrite H12. reflexivity. Qed.

Lemma same_but_token_set (t : option Token) (b : Bot) : same_but_token b (set_token t b).
Proof. reflexivity. Qed.

Lemma same_but_token_fullname (b b' : Bot) :
  same_but_token b b' -> last_comment_fullname b' = last_comment_fullname b.
Proof. intros ->. reflexivity. Qed.

Lemma guarantees_weaken {S A} (frame frame' : S -> S -> Prop) (allowed allowed' : Event -> Prop)
    (m : M S A) :
  (forall s s', frame s s' -> frame' s s') ->
  (forall e, allowed e -> allowed' e) ->
  guarantees frame allowed m -> guarantees frame' allowed' m.
Proof.
  intros Hf Ha Hm env s tr. specialize (Hm env s tr).
  destruct (m env s tr) as [[r s'] tr']. destruct Hm as [Hfr [new [-> Hall]]].
  split; [auto|]. exists new. split; [reflexivity|].
  eapply Forall_impl; eassumption.
Qed.

Ltac guarantees_step :=
  first
    [ apply guarantees_ret; assumption
    | apply guarantees_lift; assumption
    | apply guarantees_get; assumption
    | apply guarantees_ask; assumption
    | apply guarantees_emit; [assumption | reflexivity]
    | apply guarantees_datetime_now; [assumption | reflexivity]
    | apply guarantees_requests_post; [assumption | reflexivity]
    | apply guarantees_modify; intros; first [exact I | apply same_but_token_set]
    | apply guarantees_bind; [assumption | | intros ] ].

Section SessionGuarantees.
Let session (e : Event) : Prop := is_session_event e = true.
Let any_token (_ _ : Token) : Prop := True.

Lemma guarantees_is_expired : guarantees any_token session is_expired.
Proof.
  assert (Hr : forall s : Token, any_token s s) by exact (fun _ => I).
  assert (Ht : forall s1 s2 s3 : Token, any_token s1 s2 -> any_token s2 s3 -> any_token s1 s3)
    by exact (fun _ _ _ _ _ => I).
  unfold is_expired. repeat guarantees_step.
Qed.

Lemma guarantees_refresh (response : PyVal) : guarantees any_token session (refresh response).
Proof.
  assert (Hr : forall s : Token, any_token s s) by exact (fun _ => I).
  assert (Ht : forall s1 s2 s3 : Token, any_token s1 s2 -> any_token s2 s3 -> any_token s1 s3)
    by exact (fun _ _ _ _ _ => I).
  unfold refresh.
  repeat guarantees_step.
Qed.

Lemma guarantees_authenticate_session (code : option string) (is_refresh : bool) :
  guarantees same_but_token session (authenticate_session code is_refresh).
Proof.
  pose proof same_but_token_refl as Hr. pose proof same_but_token_trans as Ht.
  assert (Hget : guarantees any_token session (t <- get ;; ret (refresh_token t))).
  { assert (Hr' : forall s : Token, any_token s s) by exact (fun _ => I).
    assert (Ht' : forall s1 s2 s3 : Token, any_token s1 s2 -> any_token s2 s3 -> any_token s1 s3)
      by exact (fun _ _ _ _ _ => I).
    clear Hr Ht. repeat guarantees_step. }
  unfold authenticate_session, logging, print.
  repeat guarantees_step.
  - destruct is_refresh.
    + guarantees_step; [apply guarantees_with_token; exact Hget|]. guarantees_step.
    + guarantees_step.
  - destruct (status_code _ =? 200); [|guarantees_step].
    destruct (json _) as [r_json|]; [|repeat guarantees_step].
    guarantees_step; [|guarantees_step].
    destruct is_refresh.
    + guarantees_step; [apply guarantees_with_token, guarantees_refresh|guarantees_step].
    + repeat guarantees_step.
Qed.

Lemma guarantees_check_token_expiration :
  guarantees same_but_token session check_token_expiration.
Proof.
  pose proof same_but_token_refl as Hr. pose proof same_but_token_trans as Ht.
  unfold check_token_expiration.
  guarantees_step; [apply guarantees_with_token, guarantees_is_expired|].
  destruct (negb _); [guarantees_step|].
  guarantees_step; [apply guarantees_authenticate_session|guarantees_step].
Qed.
End SessionGuarantees.

Lemma session_event_not_del (e : Event) : is_session_event e = true -> is_del_request e = false.
Proof.
  destruct e; simpl; try reflexivity.
  intros H. apply String.eqb_eq in H. subst. reflexivity.
Qed.

Lemma session_event_not_comment (e : Event) :
  is_session_event e = true -> is_comment_request e = false.
Proof.
  destruct e; simpl; try reflexivity.
  intros H. apply String.eqb_eq in H. subst. reflexivity.
Qed.

Lemma token_of_response_issued_at (env : Env) (r_json : PyVal) (t : Token) :
  token_of_response env r_json = Return t ->
  issued_at t = Token_issued_at env /\ token_type t = "bearer".
Proof.
  unfold token_of_response. intros H.
  destruct (getitem r_json "access_token"); [|discriminate].
  destruct (getitem r_json "expires_in") as [e|]; [|discriminate].
  destruct (py_int env e); [|discriminate].
  destruct (getitem r_json "scope"); [|discriminate].
  destruct (getitem r_json "refresh_token"); [|discriminate].
  injection H as <-. split; reflexivity.
Qed.

Lemma authenticate_session_true (env : Env) (bot bot' : Bot) (code : option string)
    (tr tr' : Trace) :
  authenticate_session code false env bot tr = (Return true, bot', tr') ->
  exists r_json t, token_of_response env r_json = Return t /\ bot' = set_token (Some t) bot.
Proof.
  intros H.
  destruct (encode_ascii_cases (credentials bot)) as [Hascii|Hascii].
  - rewrite (authenticate_session_exchange env bot tr Hascii code) in H. cbv zeta in H.
    destruct (http (world env) _) as [r|]; [|discriminate].
    destruct (status_code r =? 200); [|discriminate].
    destruct (json r) as [r_json|]; [|discriminate].
    destruct (token_of_response env r_json) as [t|] eqn:Ht; [|discriminate].
    injection H as <- _. exists r_json, t. split; [exact Ht|reflexivity].
  - rewrite (authenticate_session_not_ascii env bot tr code false _ Hascii) in H. discriminate.
Qed.

(** ** The loop *)

Lemma guarantees_post_comment :
  guarantees (fun _ _ : Bot => True) (fun e => is_del_request e = false) post_comment.
Proof.
  assert (Hr : forall s : Bot, (fun _ _ : Bot => True) s s) by exact (fun _ => I).
  assert (Ht : forall s1 s2 s3 : Bot, True -> True -> True) by exact (fun _ _ _ _ _ => I).
  unfold post_comment, logging, print.
  guarantees_step.
  { eapply guarantees_weaken; [| |apply guarantees_check_token_expiration].
    - intros; exact I.
    - exact session_event_not_del. }
  repeat guarantees_step.
  destruct (status_code _ =? 200); [|repeat guarantees_step].
  destruct (json _) as [r_json|]; repeat guarantees_step.
Qed.

Lemma run_body_cases (env : Env) (bot : Bot) (tr : Trace) :
  run_body env bot tr =
    match post_comment env bot tr with
    | (Raise e, b1, t1) => (Raise e, b1, t1)
    | (Return false, b1, t1) => (Return Break, b1, t1)
    | (Return true, b1, t1) =>
        if truthy (last_comment_fullname b1) then
          match delete_comment env b1 (TimeSleep 900 :: t1) with
          | (Raise e, b2, t2) => (Raise e, b2, t2)
          | (Return false, b2, t2) => (Return Break, b2, t2)
          | (Return true, b2, t2) => (Return Continue, b2, TimeSleep 15 :: t2)
          end
        else (Return Continue, b1, TimeSleep 900 :: t1)
    end.
Proof.
  unfold run_body. unfold bind at 1.
  destruct (post_comment env bot tr) as [[[[|]|e] b1] t1]; try reflexivity.
  unfold_monad. cbn [negb]. cbv beta iota.
  destruct (truthy (last_comment_fullname b1)); [|reflexivity].
  change (60 * 15 * 1) with 900.
  destruct (delete_comment env b1 (TimeSleep 900 :: t1)) as [[[[|]|e] b2] t2]; reflexivity.
Qed.

Lemma while_true_S (n : nat) (body : M Bot Control) (env : Env) (bot : Bot) (tr : Trace) :
  while_true (S n) body env bot tr =
    match body env bot tr with
    | (Raise e, b1, t1) => (Raise e, b1, t1)
    | (Return Break, b1, t1) => (Return (Some tt), b1, t1)
    | (Return Continue, b1, t1) => while_true n body env b1 t1
    end.
Proof.
  simpl. unfold bind. destruct (body env bot tr) as [[[[|]|e] b1] t1]; reflexivity.
Qed.

Lemma while_true_resume (body : M Bot Control) (env : Env) (k m : nat) :
  forall bot tr bk tk,
    while_true k body env bot tr = (Return None, bk, tk) ->
    while_true (k + m) body env bot tr = while_true m body env bk tk.
Proof.
  induction k as [|k IH]; intros bot tr bk tk Hk.
  - simpl in Hk. injection Hk as <- <-. reflexivity.
  - change (S k + m)%nat with (S (k + m)). rewrite while_true_S in *.
    destruct (body env bot tr) as [[[[|]|e] b1] t1]; try discriminate.
    apply IH. exact Hk.
Qed.

Lemma run_unfold (n : nat) (env : Env) (bot : Bot) (tr : Trace) :
  run n env bot tr = while_true n run_body env bot (Logging INFO "Running..." :: tr).
Proof. reflexivity. Qed.

(** ** The statements of the specification *)


(** C2. [refresh] with a response object that has the three keys replaces
    [access_token], [expires_in] and [scope] by the response's values and
    sets [issued_at] to the clock reading it takes; [refresh_token] and
    [token_type] keep their values. *)
Theorem refresh_overwrites (env : Env) (t : Token) (d : gmap string PyVal)
    (a e s : PyVal) (tr : Trace) :
  d !! "access_token" = Some a ->
  d !! "expires_in" = Some e ->
  d !! "scope" = Some s ->
  refresh (PDict d) env t tr =
    (Return tt,
     {| access_token := a; expires_in := e; scope := s;
        refresh_token := refresh_token t; token_type := token_type t;
        issued_at := clock (world env) (DatetimeNow :: tr) |},
     DatetimeNow :: tr).
Proof.
  intros Ha He Hs. unfold refresh, getitem. unfold_monad.
  rewrite Ha. cbv beta iota. rewrite He. cbv beta iota. rewrite Hs. reflexivity.
Qed.

(** C3, as the code has it.  Each pass of the loop posts a comment; when the
    post returns false the loop is left at once, with nothing done after the
    post.  Otherwise the loop sleeps 900 seconds; if [last_comment_fullname]
    is truthy it then deletes the comment, leaves the loop when the delete
    returns false and sleeps 15 seconds when it returns true; if it is not
    truthy the pass ends after the 900 seconds, with neither a delete nor the
    15 seconds.  The loop has no other exit: a run whose passes all complete
    never returns.  At whatever pass a post returns false, [run] returns in
    the state that post left, and the calls made since the start of that pass
    contain no request to the delete endpoint. *)
Theorem run_cycle (env : Env) (bot : Bot) (tr : Trace) :
  (forall n b t b1 t1,
     post_comment env b t = (Return false, b1, t1) ->
     while_true (S n) run_body env b t = (Return (Some tt), b1, t1))
  /\ (forall n b t b1 t1,
     post_comment env b t = (Return true, b1, t1) ->
     truthy (last_comment_fullname b1) = false ->
     while_true (S n) run_body env b t =
       while_true n run_body env b1 (TimeSleep 900 :: t1))
  /\ (forall n b t b1 t1 b2 t2,
     post_comment env b t = (Return true, b1, t1) ->
     truthy (last_comment_fullname b1) = true ->
     (delete_comment env b1 (TimeSleep 900 :: t1) = (Return false, b2, t2) ->
        while_true (S n) run_body env b t = (Return (Some tt), b2, t2))
     /\ (delete_comment env b1 (TimeSleep 900 :: t1) = (Return true, b2, t2) ->
        while_true (S n) run_body env b t =
          while_true n run_body env b2 (TimeSleep 15 :: t2)))
  /\ (forall k bk tk b' t',
     run k env bot tr = (Return None, bk, tk) ->
     post_comment env bk tk = (Return false, b', t') ->
     forall n, (k < n)%nat ->
       run n env bot tr = (Return (Some tt), b', t')
       /\ exists new, t' = new ++ tk /\ Forall (fun e => is_del_request e = false) new)
  /\ ((forall k bk tk,
        run k env bot tr = (Return None, bk, tk) ->
        exists b' t', run_body env bk tk = (Return Continue, b', t')) ->
      forall n, exists bn tn, run n env bot tr = (Return None, bn, tn)).
Proof.
  split; [|split; [|split; [|split]]].
  - intros n b t b1 t1 Hpost.
    rewrite while_true_S, run_body_cases, Hpost. reflexivity.
  - intros n b t b1 t1 Hpost Hname.
    rewrite while_true_S, run_body_cases, Hpost, Hname. reflexivity.
  - intros n b t b1 t1 b2 t2 Hpost Hname. split; intros Hdel;
      rewrite while_true_S, run_body_cases, Hpost, Hname, Hdel; reflexivity.
  - intros k bk tk b' t' Hk Hpost n Hlt. split.
    + replace n with (k + S (n - S k))%nat by lia.
      rewrite run_unfold in *.
      rewrite (while_true_resume run_body env k _ _ _ _ _ Hk).
      rewrite while_true_S, run_body_cases, Hpost. reflexivity.
    + pose proof (guarantees_post_comment env bk tk) as Hg.
      rewrite Hpost in Hg. apply Hg.
  - intros Hcont n. rewrite run_unfold.
    induction n as [|n [bn [tn Hn]]].
    + eexists _, _. reflexivity.
    + destruct (Hcont n bn tn Hn) as [b' [t' Hbody]].
      replace (S n) with (n + 1)%nat by lia.
      rewrite (while_true_resume run_body env n _ _ _ _ _ Hn).
      rewrite while_true_S, Hbody. eexists _, _. reflexivity.
Qed.

(** C4. A first-time [authenticate_session] whose request is answered with
    status 200 and a body that is not JSON returns false and leaves the
    controller, hence its token field, as it was (unset stays unset); so does
    an answer with any status other than 200.  A refresh answered with a
    status other than 200 returns false without touching the token either. *)
Theorem authenticate_session_failure (env : Env) (bot : Bot) (code : option string)
    (tr : Trace) :
  encode_ascii (credentials bot) = Return (credentials bot) ->
  let tr0 := Logging INFO "Initializing session..." :: tr in
  (forall r,
     let tr1 := access_token_request env bot (authorization_code_data code) :: tr0 in
     http (world env) tr1 = Return r ->
     (status_code r = 200 -> json r = None ->
        authenticate_session code false env bot tr =
          (Return false, bot, Logging DEBUG "Could not load access token..." :: tr1))
     /\ (status_code r <> 200 ->
        authenticate_session code false env bot tr = (Return false, bot, tr1)))
  /\ (forall t r,
     token bot = Some t ->
     let tr1 := access_token_request env bot (refresh_token_data t) :: tr0 in
     http (world env) tr1 = Return r ->
     status_code r <> 200 ->
     authenticate_session code true env bot tr = (Return false, bot, tr1)).
Proof.
  intros Hascii tr0. split.
  - intros r tr1 Hr.
    pose proof (authenticate_session_exchange env bot tr Hascii code) as Hrun.
    cbv zeta in Hrun. fold tr0 tr1 in Hrun. rewrite Hr in Hrun.
    split.
    + intros Hs Hj. rewrite Hrun, Hs, Hj. reflexivity.
    + intros Hs. apply Z.eqb_neq in Hs. rewrite Hrun, Hs. reflexivity.
  - intros t r Ht tr1 Hr Hs.
    pose proof (authenticate_session_refresh env bot tr Hascii code t Ht) as Hrun.
    cbv zeta in Hrun. fold tr0 tr1 in Hrun. rewrite Hr in Hrun.
    apply Z.eqb_neq in Hs. rewrite Hrun, Hs. reflexivity.
Qed.

(** C5, as the code has it.  Once the expiry guard has returned,
    [post_comment] returns true exactly when the comment endpoint answers
    with status 200 and a JSON body from which ["name"] can be read, and it
    then stores that value in [last_comment_fullname]; it returns false when
    the status is not 200 or the body is not JSON, and then
    [last_comment_fullname] is what it was before the call. *)
Theorem post_comment_outcome (env : Env) (bot b0 : Bot) (tr t0 : Trace) (r : Response) :
  check_token_expiration env bot tr = (Return tt, b0, t0) ->
  let tr1 := comment_request env b0 :: Logging INFO "Posting comment..." :: t0 in
  http (world env) tr1 = Return r ->
  (forall r_json name,
     status_code r = 200 -> json r = Some r_json -> getitem r_json "name" = Return name ->
     post_comment env bot tr =
       (Return true, set_last_comment_fullname name b0,
        Print "> Successfully posted comment." :: tr1))
  /\ (status_code r = 200 -> json r = None ->
      post_comment env bot tr =
        (Return false, b0, Logging DEBUG "Could not load access token..." :: tr1))
  /\ (status_code r <> 200 ->
      post_comment env bot tr =
        (Return false, b0, Logging ERROR "[!] Unable to post new comment. Exiting..." :: tr1))
  /\ (forall b' t',
      post_comment env bot tr = (Return true, b', t') ->
      status_code r = 200
      /\ exists r_json name, json r = Some r_json /\ getitem r_json "name" = Return name)
  /\ last_comment_fullname b0 = last_comment_fullname bot.
Proof.
  intros Hguard tr1 Hr.
  pose proof (post_comment_cases env bot tr) as Hrun.
  rewrite Hguard in Hrun. cbv zeta in Hrun. fold tr1 in Hrun. rewrite Hr in Hrun.
  split; [|split; [|split; [|split]]].
  - intros r_json name Hs Hj Hn. rewrite Hrun, Hs, Hj, Hn. reflexivity.
  - intros Hs Hj. rewrite Hrun, Hs, Hj. reflexivity.
  - intros Hs. apply Z.eqb_neq in Hs. rewrite Hrun, Hs. reflexivity.
  - intros b' t' Htrue. rewrite Hrun in Htrue.
    destruct (status_code r =? 200) eqn:Hs; [|discriminate].
    split; [apply Z.eqb_eq; exact Hs|].
    destruct (json r) as [r_json|]; [|discriminate].
    destruct (getitem r_json "name") as [name|] eqn:Hn; [|discriminate].
    exists r_json, name. split; [reflexivity|exact Hn].
  - pose proof (guarantees_check_token_expiration env bot tr) as Hg.
    rewrite Hguard in Hg. destruct Hg as [Hframe _].
    apply same_but_token_fullname. exact Hframe.
Qed.

(** C6. [authorize_application] sends one GET to the authorize endpoint
    with the six query parameters, the state being the UUID drawn in this
    call.  When the answer has status 200 it opens the answer's resolved URL
    in the browser and returns true; with any other status it returns false
    and raises nothing. *)
Theorem authorize_application_status (env : Env) (bot : Bot) (tr : Trace) (r : Response) :
  let tr0 := Uuid4 :: Logging INFO "Authorizing application..." :: tr in
  let request :=
    RequestsGet (COMMON_API_URI +:+ "/authorize")
      [("client_id", client_id bot);
       ("response_type", "code");
       ("state", uuid4 (world env) tr0);
       ("redirect_uri", REDIRECT_URI);
       ("duration", "permanent");
       ("scope", "edit submit")]
      [("User-Agent", USER_AGENT)] in
  http (world env) (request :: tr0) = Return r ->
  (status_code r = 200 ->
     authorize_application env bot tr =
       (Return true, bot, WebbrowserOpen (url r) 2 :: request :: tr0))
  /\ (status_code r <> 200 ->
     authorize_application env bot tr = (Return false, bot, request :: tr0)).
Proof.
  intros tr0 request Hr.
  assert (Hrun : authorize_application env bot tr =
                 if status_code r =? 200
                 then (Return true, bot, WebbrowserOpen (url r) 2 :: request :: tr0)
                 else (Return false, bot, request :: tr0)).
  { unfold authorize_application. unfold_monad.
    unfold request, tr0 in Hr. rewrite Hr.
    destruct (status_code r =? 200); reflexivity. }
  split; intros Hs; rewrite Hrun.
  - rewrite Hs. reflexivity.
  - apply Z.eqb_neq in Hs. rewrite Hs. reflexivity.
Qed.

(** C7. A token whose [access_token] is the string [a] renders as
    [token_type], a space, [a]; that rendering is the [Authorization] header
    of the requests [post_comment] and [delete_comment] send; and after a
    successful first-time [authenticate_session] whose response carries the
    access token [A], the header of the controller is ["bearer A"]. *)
Theorem token_renders_as_authorization (env : Env) :
  (forall t a, access_token t = PStr a -> Token_str env t = token_type t +:+ " " +:+ a)
  /\ (forall bot tr b0 t0 t,
     check_token_expiration env bot tr = (Return tt, b0, t0) ->
     token b0 = Some t ->
     (exists res b' tail,
        post_comment env bot tr =
          (res, b',
           tail ++ RequestsPost (OAUTH_API_URI +:+ "/comment")
                     [("Authorization", Token_str env t); ("User-Agent", USER_AGENT)]
                     [("api_type", PStr "json"); ("return_rtjson", PBool true);
                      ("text", PStr (message b0)); ("thing_id", PStr "t3_so87rb")]
                   :: Logging INFO "Posting comment..." :: t0))
     /\ (exists res b' tail,
        delete_comment env bot tr =
          (res, b',
           tail ++ RequestsPost (OAUTH_API_URI +:+ "/del")
                     [("Authorization", Token_str env t); ("User-Agent", USER_AGENT)]
                     [("id", last_comment_fullname b0)]
                   :: Logging INFO "Deleting previous comment..." :: t0)))
  /\ (forall bot tr code r d A e n s rt,
     encode_ascii (credentials bot) = Return (credentials bot) ->
     http (world env) (access_token_request env bot (authorization_code_data code)
                         :: Logging INFO "Initializing session..." :: tr) = Return r ->
     status_code r = 200 -> json r = Some (PDict d) ->
     d !! "access_token" = Some (PStr A) ->
     d !! "expires_in" = Some e -> py_int env e = Return n ->
     d !! "scope" = Some s ->
     d !! "refresh_token" = Some rt ->
     exists bot' tr',
       authenticate_session code false env bot tr = (Return true, bot', tr')
       /\ format_token env (token bot') = "bearer " +:+ A
       /\ authorization_headers env bot' =
            [("Authorization", "bearer " +:+ A); ("User-Agent", USER_AGENT)]).
Proof.
  split; [|split].
  - intros t a Ha. unfold Token_str. rewrite Ha. reflexivity.
  - intros bot tr b0 t0 t Hguard Ht. split.
    + rewrite post_comment_cases, Hguard. cbv zeta.
      unfold comment_request, authorization_headers. rewrite Ht. simpl format_token.
      destruct (http (world env) _) as [r|e]; [|exists (Raise e), b0, []; reflexivity].
      destruct (status_code r =? 200); [|eexists _, _, [_]; reflexivity].
      destruct (json r) as [r_json|]; [|eexists _, _, [_]; reflexivity].
      destruct (getitem r_json "name"); [eexists _, _, [_]|eexists _, _, []]; reflexivity.
    + rewrite delete_comment_cases, Hguard. cbv zeta.
      unfold del_request, authorization_headers. rewrite Ht. simpl format_token.
      destruct (http (world env) _) as [r|e]; [|exists (Raise e), b0, []; reflexivity].
      destruct (status_code r =? 200); eexists _, _, [_]; reflexivity.
  - intros bot tr code r d A e n s rt Hascii Hr Hs Hj Ha He Hn Hsc Hrt.
    rewrite (authenticate_session_exchange env bot tr Hascii code). cbv zeta.
    rewrite Hr, Hs, Hj. simpl. unfold token_of_response, getitem.
    rewrite Ha, He, Hn, Hsc, Hrt.
    eexists _, _. split; [reflexivity|]. split; reflexivity.
Qed.


(** C9. A token built by the first-time exchange takes its [issued_at] from
    the default of the dataclass field, whatever the clock reads when the
    exchange succeeds, so any two such tokens carry the same timestamp; in a
    run of the module that default is the clock reading taken when the class
    statement of [Token] was executed, before anything else happened. *)
Theorem issued_at_is_class_definition_time :
  (forall env bot bot' code tr tr',
     authenticate_session code false env bot tr = (Return true, bot', tr') ->
     exists t, token bot' = Some t /\ issued_at t = Token_issued_at env)
  /\ (forall env bot1 bot1' code1 tr1 tr1' t1 bot2 bot2' code2 tr2 tr2' t2,
     authenticate_session code1 false env bot1 tr1 = (Return true, bot1', tr1') ->
     authenticate_session code2 false env bot2 tr2 = (Return true, bot2', tr2') ->
     token bot1' = Some t1 -> token bot2' = Some t2 ->
     issued_at t1 = issued_at t2)
  /\ (forall b w client_id client_secret message bot' tr',
     program b w client_id client_secret message 0 = (Return None, Some bot', tr') ->
     exists t, token bot' = Some t /\ issued_at t = clock w [DatetimeNow]).
Proof.
  assert (Hexchange : forall env bot bot' code tr tr',
             authenticate_session code false env bot tr = (Return true, bot', tr') ->
             exists t, token bot' = Some t /\ issued_at t = Token_issued_at env).
  { intros env bot bot' code tr tr' H.
    destruct (authenticate_session_true _ _ _ _ _ _ H) as [r_json [t [Ht ->]]].
    exists t. split; [reflexivity|]. apply (token_of_response_issued_at env r_json t Ht). }
  split; [exact Hexchange|split].
  - intros env bot1 bot1' code1 tr1 tr1' t1 bot2 bot2' code2 tr2 tr2' t2 H1 H2 Ht1 Ht2.
    destruct (Hexchange _ _ _ _ _ _ H1) as [t1' [Ht1' E1]].
    destruct (Hexchange _ _ _ _ _ _ H2) as [t2' [Ht2' E2]].
    congruence.
  - intros b w cid cs msg bot' tr'. unfold program.
    destruct (init cid cs msg) as [bot|]; [|discriminate].
    set (env := {| py := b; world := w; Token_issued_at := clock w [DatetimeNow] |}).
    unfold start. unfold bind at 1.
    destruct (authorize_application env bot [DatetimeNow]) as [[[ok|e] b1] t1]; [|discriminate].
    unfold bind at 1. unfold input at 1. cbv zeta. unfold bind at 1.
    destruct (authenticate_session _ false env b1 _) as [[[authenticated|e] b2] t2] eqn:Hauth;
      [|discriminate].
    destruct authenticated; [|discriminate].
    unfold run. unfold_monad. simpl. intros H. injection H as <- _.
    exact (Hexchange _ _ _ _ _ _ Hauth).
Qed.

(** C10. On an answer with status 200 whose JSON body is an object without
    an expected key, the operation raises instead of returning false:
    [post_comment] raises [KeyError] for ["name"], and a first-time
    [authenticate_session] raises when any of the four keys is missing; in
    both cases the controller is left as it was, so an unset token stays
    unset. *)
Theorem missing_key_raises (env : Env) (bot : Bot) (tr : Trace) :
  (forall b0 t0 r d,
     check_token_expiration env bot tr = (Return tt, b0, t0) ->
     let tr1 := comment_request env b0 :: Logging INFO "Posting comment..." :: t0 in
     http (world env) tr1 = Return r ->
     status_code r = 200 -> json r = Some (PDict d) -> d !! "name" = None ->
     post_comment env bot tr = (Raise (KeyError "name"), b0, tr1))
  /\ (forall code r d,
     encode_ascii (credentials bot) = Return (credentials bot) ->
     let tr1 := access_token_request env bot (authorization_code_data code)
                  :: Logging INFO "Initializing session..." :: tr in
     http (world env) tr1 = Return r ->
     status_code r = 200 -> json r = Some (PDict d) ->
     d !! "access_token" = None \/ d !! "expires_in" = None
       \/ d !! "scope" = None \/ d !! "refresh_token" = None ->
     exists e, authenticate_session code false env bot tr = (Raise e, bot, tr1)).
Proof.
  split.
  - intros b0 t0 r d Hguard tr1 Hr Hs Hj Hn.
    rewrite post_comment_cases, Hguard. cbv zeta. fold tr1.
    rewrite Hr, Hs, Hj. simpl. rewrite Hn. reflexivity.
  - intros code r d Hascii tr1 Hr Hs Hj Hmissing.
    rewrite (authenticate_session_exchange env bot tr Hascii code). cbv zeta. fold tr1.
    rewrite Hr, Hs, Hj. simpl. unfold token_of_response, getitem.
    destruct (d !! "access_token") as [a|]; [|eauto].
    destruct (d !! "expires_in") as [e|]; [|eauto].
    destruct (py_int env e) as [n|]; [|eauto].
    destruct (d !! "scope") as [s|]; [|eauto].
    destruct (d !! "refresh_token") as [rt|]; [|eauto].
    destruct Hmissing as [H|[H|[H|H]]]; discriminate.
Qed.

(** ** A world in which the loop never ends *)

Lemma steady_pass (b : Bot) (t : Trace) :
  token b = Some token_A ->
  exists b' t',
    run_body steady_env b t = (Return Continue, b', t') /\ token b' = Some token_A.
Proof.
  intros Ht.
  assert (Hguard : forall b0 t0, token b0 = Some token_A ->
            check_token_expiration steady_env b0 t0 = (Return tt, b0, DatetimeNow :: t0)).
  { intros b0 t0 H0. rewrite (check_token_expiration_cases steady_env b0 t0 token_A H0).
    reflexivity. }
  rewrite run_body_cases, post_comment_cases, (Hguard b t Ht). cbv zeta.
  change (http (world steady_env) (comment_request steady_env b :: _))
    with (Return (reply 200 (Some (comment_json (PStr "t1_abc"))))).
  cbv beta iota delta [reply status_code json Z.eqb Pos.eqb].
  change (getitem (comment_json (PStr "t1_abc")) "name") with (Return (PStr "t1_abc")).
  cbv beta iota.
  change (truthy _) with true. cbv iota.
  rewrite delete_comment_cases, Hguard by exact Ht. cbv zeta.
  change (http (world steady_env) (del_request steady_env _ :: _))
    with (Return (reply 200 None)).
  eexists _, _. split; [reflexivity|exact Ht].
Qed.

Lemma steady_loop (k : nat) :
  forall b t,
    token b = Some token_A ->
    exists bk tk,
      while_true k run_body steady_env b t = (Return None, bk, tk)
      /\ token bk = Some token_A.
Proof.
  induction k as [|k IH]; intros b t Ht.
  - exists b, t. split; [reflexivity|exact Ht].
  - destruct (steady_pass b t Ht) as [b' [t' [Hbody Ht']]].
    rewrite while_true_S, Hbody. apply IH. exact Ht'.
Qed.

Lemma steady_passes_continue (k : nat) (bk : Bot) (tk : Trace) :
  run k steady_env active_bot [] = (Return None, bk, tk) ->
  exists b' t', run_body steady_env bk tk = (Return Continue, b', t').
Proof.
  intros Hk. rewrite run_unfold in Hk.
  destruct (steady_loop k active_bot [Logging INFO "Running..."] eq_refl)
    as [bk' [tk' [Hk' Ht]]].
  rewrite Hk in Hk'. injection Hk' as <- <-.
  destruct (steady_pass bk tk Ht) as [b' [t' [Hbody _]]].
  exists b', t'. exact Hbody.
Qed.

(** ** Concrete runs *)



(** With a float [expires_in] both the limit and the elapsed time are
    rounded: 7200.1 - 60 and 7140.1 are the same float. *)
Lemma is_expired_float_limit :
  is_expired float_expiry_env float_token [] = (Return true, float_token, [DatetimeNow]).
Proof. vm_compute. reflexivity. Qed.

Lemma refresh_overwrites_witness :
  refresh_object !! "access_token" = Some (PStr "B")
  /\ refresh_object !! "expires_in" = Some (PInt 7200)
  /\ refresh_object !! "scope" = Some (PStr "edit")
  /\ refresh (PDict refresh_object) expired_env token_A [] =
       (Return tt,
        {| access_token := PStr "B"; expires_in := PInt 7200; scope := PStr "edit";
           refresh_token := PStr "R"; token_type := "bearer"; issued_at := 3600000000 |},
        [DatetimeNow]).
Proof.
  split; [reflexivity|]. split; [reflexivity|]. split; [reflexivity|].
  apply (refresh_overwrites expired_env token_A refresh_object
           (PStr "B") (PInt 7200) (PStr "edit") []); reflexivity.
Defined.

(** The scenario of the specification: the first post is named [t1_abc] and
    deleted under that name, the second post is answered with status 500,
    and [run] returns with the trace of that second post as its last
    entries.  In the world where every call succeeds the loop is still
    running after a thousand passes. *)
Lemma run_cycle_witness :
  (exists bk tk b' t',
     run 1 scenario_env active_bot [] = (Return None, bk, tk)
     /\ In (RequestsPost (OAUTH_API_URI +:+ "/del")
              [("Authorization", "bearer A"); ("User-Agent", USER_AGENT)]
              [("id", PStr "t1_abc")]) tk
     /\ post_comment scenario_env bk tk = (Return false, b', t')
     /\ run 5 scenario_env active_bot [] = (Return (Some tt), b', t')
     /\ exists new, t' = new ++ tk /\ Forall (fun e => is_del_request e = false) new)
  /\ (exists bn tn, run 1000 steady_env active_bot [] = (Return None, bn, tn)).
Proof.
  split.
  - eexists _, _, _, _.
    assert (H1 : run 1 scenario_env active_bot [] =
                 (Return None, set_last_comment_fullname (PStr "t1_abc") active_bot,
                  snd (run 1 scenario_env active_bot []))) by (vm_compute; reflexivity).
    assert (H2 : post_comment scenario_env
                   (set_last_comment_fullname (PStr "t1_abc") active_bot)
                   (snd (run 1 scenario_env active_bot [])) =
                 (Return false, set_last_comment_fullname (PStr "t1_abc") active_bot,
                  snd (run 2 scenario_env active_bot []))) by (vm_compute; reflexivity).
    split; [exact H1|]. split; [vm_compute; tauto|]. split; [exact H2|].
    apply (proj1 (proj2 (proj2 (proj2 (run_cycle scenario_env active_bot []))))
             1%nat _ _ _ _ H1 H2 5%nat).
    lia.
  - apply (proj2 (proj2 (proj2 (proj2 (run_cycle steady_env active_bot []))))
             steady_passes_continue 1000%nat).
Defined.

(** With an empty fullname in the answer the second post follows the first
    15-minute sleep directly: no delete and no 15-second sleep between. *)
Lemma run_without_short_sleep :
  run 2 empty_name_env active_bot [] =
    (Return None,
     set_last_comment_fullname (PStr EmptyString) active_bot,
     [TimeSleep 900; Print "> Successfully posted comment.";
      comment_request empty_name_env active_bot; Logging INFO "Posting comment...";
      DatetimeNow;
      TimeSleep 900; Print "> Successfully posted comment.";
      comment_request empty_name_env active_bot; Logging INFO "Posting comment...";
      DatetimeNow;
      Logging INFO "Running..."])
  /\ ~ In (TimeSleep 15) (snd (run 2 empty_name_env active_bot [])).
Proof.
  split; [vm_compute; reflexivity|].
  vm_compute. intros H. repeat (destruct H as [H|H]; [discriminate|]). exact H.
Defined.

Lemma authenticate_session_failure_witness :
  encode_ascii (credentials fresh_bot) = Return (credentials fresh_bot)
  /\ authenticate_session (Some "c") false not_json_env fresh_bot [] =
       (Return false, fresh_bot,
        [Logging DEBUG "Could not load access token...";
         access_token_request not_json_env fresh_bot (authorization_code_data (Some "c"));
         Logging INFO "Initializing session..."])
  /\ token fresh_bot = None.
Proof.
  split; [reflexivity|]. split; [|reflexivity].
  apply (proj1 (proj1 (authenticate_session_failure not_json_env fresh_bot (Some "c") []
                         eq_refl) (reply 200 None) eq_refl));
    reflexivity.
Defined.

Lemma post_comment_outcome_witness :
  check_token_expiration scenario_env active_bot [] = (Return tt, active_bot, [DatetimeNow])
  /\ post_comment scenario_env active_bot [] =
       (Return true, set_last_comment_fullname (PStr "t1_abc") active_bot,
        [Print "> Successfully posted comment.";
         comment_request scenario_env active_bot;
         Logging INFO "Posting comment..."; DatetimeNow]).
Proof.
  split; [reflexivity|].
  apply (proj1 (post_comment_outcome scenario_env active_bot active_bot [] [DatetimeNow]
                  (reply 200 (Some (comment_json (PStr "t1_abc")))) eq_refl eq_refl)
           (comment_json (PStr "t1_abc")) (PStr "t1_abc"));
    reflexivity.
Defined.

(** A 200 answer with the JSON object [{}]: parseable, yet [post_comment]
    does not return true, it raises. *)
Lemma post_comment_empty_object :
  http (world empty_object_env)
    [comment_request empty_object_env active_bot; Logging INFO "Posting comment...";
     DatetimeNow] = Return (reply 200 (Some (PDict ∅)))
  /\ post_comment empty_object_env active_bot [] =
       (Raise (KeyError "name"), active_bot,
        [comment_request empty_object_env active_bot; Logging INFO "Posting comment...";
         DatetimeNow]).
Proof. split; vm_compute; reflexivity. Defined.

Lemma authorize_application_status_witness :
  http (world scenario_env)
    (snd (authorize_application scenario_env fresh_bot [])) = Return (reply 200 None)
  /\ authorize_application scenario_env fresh_bot [] =
       (Return true, fresh_bot,
        [WebbrowserOpen "https://www.reddit.com/login/" 2;
         RequestsGet "https://www.reddit.com/api/v1/authorize"
           [("client_id", "id"); ("response_type", "code");
            ("state", "123e4567-e89b-12d3-a456-426614174000");
            ("redirect_uri", "https://www.reddit.com/r/PokemonGoFriends");
            ("duration", "permanent"); ("scope", "edit submit")]
           [("User-Agent", USER_AGENT)];
         Uuid4; Logging INFO "Authorizing application..."]).
Proof.
  split; [reflexivity|].
  apply (proj1 (authorize_application_status scenario_env fresh_bot [] (reply 200 None)
                  eq_refl)).
  reflexivity.
Defined.

(** The example of the specification: after the exchange the header is
    ["bearer A"]. *)
Lemma token_renders_as_authorization_witness :
  exists bot' tr',
    authenticate_session (Some "c") false scenario_env fresh_bot [] = (Return true, bot', tr')
    /\ format_token scenario_env (token bot') = "bearer A"
    /\ authorization_headers scenario_env bot' =
         [("Authorization", "bearer A"); ("User-Agent", USER_AGENT)].
Proof.
  apply (proj2 (proj2 (token_renders_as_authorization scenario_env))
           fresh_bot [] (Some "c") (reply 200 (Some token_json))
           (list_to_map [("access_token", PStr "A"); ("expires_in", PInt 3600);
                         ("scope", PStr "edit submit"); ("refresh_token", PStr "R")])
           "A" (PInt 3600) 3600 (PStr "edit submit") (PStr "R"));
    reflexivity.
Defined.



(** With a clock that advances one second per call, the class statement
    reads 1 s; the exchange takes place seven calls later, and the token it
    builds is stamped 1 s. *)
Lemma issued_at_is_class_definition_time_witness :
  exists bot' tr' t,
    program plain_builtins ticking_world "id" "secret" "hello" 0 = (Return None, Some bot', tr')
    /\ token bot' = Some t
    /\ issued_at t = 1000000
    /\ (length tr' = 10)%nat.
Proof.
  assert (H : program plain_builtins ticking_world "id" "secret" "hello" 0 =
              (Return None, Some (set_token (Some (set_issued_at 1000000 token_A)) fresh_bot),
               snd (program plain_builtins ticking_world "id" "secret" "hello" 0)))
    by (vm_compute; reflexivity).
  destruct (proj2 (proj2 issued_at_is_class_definition_time) _ _ _ _ _ _ _ H)
    as [t [Ht Hissued]].
  eexists _, _, t. split; [exact H|]. split; [exact Ht|]. split; [exact Hissued|].
  reflexivity.
Defined.

Lemma missing_key_raises_witness :
  check_token_expiration empty_object_env active_bot [] = (Return tt, active_bot, [DatetimeNow])
  /\ (∅ : gmap string PyVal) !! "name" = None
  /\ post_comment empty_object_env active_bot [] =
       (Raise (KeyError "name"), active_bot,
        [comment_request empty_object_env active_bot; Logging INFO "Posting comment...";
         DatetimeNow]).
Proof.
  split; [reflexivity|]. split; [reflexivity|].
  apply (proj1 (missing_key_raises empty_object_env active_bot [])
           active_bot [DatetimeNow] (reply 200 (Some (PDict ∅))) ∅);
    reflexivity.
Defined.

(** * Further properties of the code *)

(** ** Construction and calls made too early *)

Lemma truthy_string (s : string) : truthy (PStr s) = true <-> s <> EmptyString.
Proof.
  simpl. destruct (String.eqb_spec s EmptyString) as [->|Hne]; simpl.
  - split; [discriminate|intros H; exfalso; apply H; reflexivity].
  - split; [intros _; exact Hne|reflexivity].
Qed.

(** X1. The constructor accepts the three settings exactly when none of them
    is empty, and the controller it builds holds no token and no comment
    name; with an empty setting it fails its assertion, and the module then
    stops before any request, having only read the clock for the class
    statement. *)
Theorem init_checks_settings (cid cs msg : string) :
  (cid <> EmptyString -> cs <> EmptyString -> msg <> EmptyString ->
     init cid cs msg =
       Return {| client_id := cid; client_secret := cs; message := msg;
                 token := None; last_comment_fullname := PNone |})
  /\ (cid = EmptyString \/ cs = EmptyString \/ msg = EmptyString ->
      init cid cs msg = Raise AssertionError
      /\ forall b w fuel,
           program b w cid cs msg fuel = (Raise AssertionError, None, [DatetimeNow])).
Proof.
  split.
  - intros H1 H2 H3. unfold init.
    apply truthy_string in H1, H2, H3. rewrite H1, H2, H3. reflexivity.
  - intros Hempty.
    assert (Hinit : init cid cs msg = Raise AssertionError).
    { unfold init.
      destruct Hempty as [H|[H|H]]; subst; simpl;
        rewrite ?andb_false_r; reflexivity. }
    split; [exact Hinit|].
    intros b w fuel. unfold program. rewrite Hinit. reflexivity.
Qed.

Lemma init_checks_settings_witness :
  init "id" "secret" "hello" = Return fresh_bot
  /\ init "id" EmptyString "hello" = Raise AssertionError.
Proof.
  split.
  - apply (proj1 (init_checks_settings "id" "secret" "hello")); discriminate.
  - apply (proj2 (init_checks_settings "id" EmptyString "hello")).
    right. left. reflexivity.
Defined.

(** X2. While the controller holds no token, the expiry guard raises
    [AttributeError] at once, so [post_comment], [delete_comment] and [run]
    raise it before any request is made and without changing the
    controller; a refresh-mode [authenticate_session] raises before sending
    its request as well. *)
Theorem calls_without_token (env : Env) (bot : Bot) (tr : Trace) :
  token bot = None ->
  check_token_expiration env bot tr = (Raise AttributeError, bot, tr)
  /\ post_comment env bot tr = (Raise AttributeError, bot, tr)
  /\ delete_comment env bot tr = (Raise AttributeError, bot, tr)
  /\ (forall n,
      run (S n) env bot tr = (Raise AttributeError, bot, Logging INFO "Running..." :: tr))
  /\ (forall code,
      exists e,
        authenticate_session code true env bot tr =
          (Raise e, bot, Logging INFO "Initializing session..." :: tr)).
Proof.
  intros Ht.
  pose proof (fun tr => check_token_expiration_no_token env bot tr Ht) as Hguard.
  split; [apply Hguard|].
  split; [rewrite post_comment_cases, Hguard; reflexivity|].
  split; [rewrite delete_comment_cases, Hguard; reflexivity|].
  split.
  - intros n. rewrite run_unfold, while_true_S, run_body_cases, post_comment_cases, Hguard.
    reflexivity.
  - intros code. destruct (encode_ascii_cases (credentials bot)) as [Hascii|Hascii].
    + exists AttributeError.
      apply (authenticate_session_refresh_no_token env bot tr Hascii code Ht).
    + exists UnicodeEncodeError.
      apply (authenticate_session_not_ascii env bot tr code true _ Hascii).
Qed.

Lemma calls_without_token_witness :
  token fresh_bot = None
  /\ post_comment scenario_env fresh_bot [] = (Raise AttributeError, fresh_bot, [])
  /\ run 3 scenario_env fresh_bot [] =
       (Raise AttributeError, fresh_bot, [Logging INFO "Running..."]).
Proof.
  split; [reflexivity|].
  pose proof (calls_without_token scenario_env fresh_bot [] eq_refl) as H.
  split; [apply H|]. apply (proj1 (proj2 (proj2 (proj2 H))) 2%nat).
Defined.

(** X3. When the client id or secret holds a character that ASCII cannot
    encode, [authenticate_session] raises [UnicodeEncodeError] while it
    builds the Basic header, in either mode: no request is sent and the
    controller is unchanged. *)
Theorem non_ascii_credentials (env : Env) (bot : Bot) (tr : Trace)
    (code : option string) (is_refresh : bool) :
  is_ascii (credentials bot) = false ->
  authenticate_session code is_refresh env bot tr =
    (Raise UnicodeEncodeError, bot, Logging INFO "Initializing session..." :: tr).
Proof.
  intros Hascii.
  apply authenticate_session_not_ascii.
  unfold encode_ascii. fold (is_ascii (credentials bot)). rewrite Hascii. reflexivity.
Qed.

Lemma non_ascii_credentials_witness :
  is_ascii (credentials accented_bot) = false
  /\ authenticate_session (Some "c") false scenario_env accented_bot [] =
       (Raise UnicodeEncodeError, accented_bot, [Logging INFO "Initializing session..."]).
Proof.
  split; [reflexivity|].
  apply (non_ascii_credentials scenario_env accented_bot [] (Some "c") false).
  reflexivity.
Defined.

(** ** Refreshing *)

(** X4. [Token.refresh] assigns field by field and stops at the first key
    the response lacks: the fields assigned before keep their new values,
    the later ones and [issued_at] keep the old ones, and the clock is not
    read.  A response that is not an object changes nothing. *)
Theorem refresh_stops_at_missing_key (env : Env) (t : Token) (tr : Trace) :
  (forall j, is_object j = false -> refresh j env t tr = (Raise TypeError, t, tr))
  /\ (forall d,
      d !! "access_token" = None ->
      refresh (PDict d) env t tr = (Raise (KeyError "access_token"), t, tr))
  /\ (forall d a,
      d !! "access_token" = Some a -> d !! "expires_in" = None ->
      refresh (PDict d) env t tr =
        (Raise (KeyError "expires_in"),
         {| access_token := a; expires_in := expires_in t; scope := scope t;
            refresh_token := refresh_token t; token_type := token_type t;
            issued_at := issued_at t |},
         tr))
  /\ (forall d a e,
      d !! "access_token" = Some a -> d !! "expires_in" = Some e -> d !! "scope" = None ->
      refresh (PDict d) env t tr =
        (Raise (KeyError "scope"),
         {| access_token := a; expires_in := e; scope := scope t;
            refresh_token := refresh_token t; token_type := token_type t;
            issued_at := issued_at t |},
         tr)).
Proof.
  split; [|split; [|split]].
  - intros j Hj. destruct j; try discriminate; reflexivity.
  - intros d Ha. unfold refresh, getitem. unfold_monad. rewrite Ha. reflexivity.
  - intros d a Ha He. unfold refresh, getitem. unfold_monad.
    rewrite Ha. cbv beta iota. rewrite He. reflexivity.
  - intros d a e Ha He Hs. unfold refresh, getitem. unfold_monad.
    rewrite Ha. cbv beta iota. rewrite He. cbv beta iota. rewrite Hs. reflexivity.
Qed.

Lemma refresh_stops_at_missing_key_witness :
  scopeless_object !! "scope" = None
  /\ refresh (PDict scopeless_object) expired_env token_A [] =
       (Raise (KeyError "scope"),
        {| access_token := PStr "B"; expires_in := PInt 7200; scope := PStr "edit submit";
           refresh_token := PStr "R"; token_type := "bearer"; issued_at := 0 |},
        []).
Proof.
  split; [reflexivity|].
  apply (proj2 (proj2 (proj2 (refresh_stops_at_missing_key expired_env token_A [])))
           scopeless_object (PStr "B") (PInt 7200));
    reflexivity.
Defined.

(** X5. A refresh through the controller sends the stored refresh token with
    [grant_type=refresh_token], whatever [code] was passed; on a 200 answer
    with the three keys it returns true, the controller's token carries the
    new access token, expiry and scope, the old refresh token and the time
    of the clock reading made after the answer, and the header of the next
    authenticated call is built from the new access token. *)
Theorem refresh_through_controller (env : Env) (bot : Bot) (t : Token) (tr : Trace)
    (code : option string) (r : Response) (d : gmap string PyVal) (a e s : PyVal) :
  encode_ascii (credentials bot) = Return (credentials bot) ->
  token bot = Some t ->
  let tr1 := RequestsPost (COMMON_API_URI +:+ "/access_token")
               [("Authorization", "Basic " +:+ b64encode (py env) (credentials bot));
                ("User-Agent", USER_AGENT)]
               [("grant_type", PStr "refresh_token"); ("refresh_token", refresh_token t)]
             :: Logging INFO "Initializing session..." :: tr in
  http (world env) tr1 = Return r ->
  status_code r = 200 -> json r = Some (PDict d) ->
  d !! "access_token" = Some a -> d !! "expires_in" = Some e -> d !! "scope" = Some s ->
  exists bot',
    authenticate_session code true env bot tr =
      (Return true, bot',
       Print "> Successfully refreshed authentication token." :: DatetimeNow :: tr1)
    /\ token bot' =
         Some {| access_token := a; expires_in := e; scope := s;
                 refresh_token := refresh_token t; token_type := token_type t;
                 issued_at := clock (world env) (DatetimeNow :: tr1) |}
    /\ same_but_token bot bot'
    /\ authorization_headers env bot' =
         [("Authorization", token_type t +:+ " " +:+ format_value env a);
          ("User-Agent", USER_AGENT)].
Proof.
  intros Hascii Ht tr1 Hr Hs Hj Ha He Hsc.
  rewrite (authenticate_session_refresh env bot tr Hascii code t Ht). cbv zeta.
  change (access_token_request env bot (refresh_token_data t) :: _) with tr1.
  rewrite Hr, Hs, Hj. simpl.
  unfold refresh, getitem. unfold_monad.
  rewrite Ha. cbv beta iota. rewrite He. cbv beta iota. rewrite Hsc. cbv beta iota.
  eexists. split; [reflexivity|]. split; [reflexivity|]. split; reflexivity.
Qed.

Lemma refresh_through_controller_witness :
  exists bot',
    authenticate_session None true refreshing_env active_bot [] =
      (Return true, bot',
       [Print "> Successfully refreshed authentication token."; DatetimeNow;
        access_token_request refreshing_env active_bot (refresh_token_data token_A);
        Logging INFO "Initializing session..."])
    /\ token bot' =
         Some {| access_token := PStr "B"; expires_in := PInt 7200; scope := PStr "edit";
                 refresh_token := PStr "R"; token_type := "bearer";
                 issued_at := 3600000000 |}
    /\ same_but_token active_bot bot'
    /\ authorization_headers refreshing_env bot' =
         [("Authorization", "bearer B"); ("User-Agent", USER_AGENT)].
Proof.
  apply (refresh_through_controller refreshing_env active_bot token_A [] None
           (reply 200 (Some (PDict refresh_object))) refresh_object
           (PStr "B") (PInt 7200) (PStr "edit"));
    reflexivity.
Defined.

(** X6. When the refresh answer lacks ["scope"], [authenticate_session]
    raises [KeyError] out of [Token.refresh], and the controller is left
    with a token that mixes the new access token and expiry with the old
    scope and the old issue time. *)
Theorem refresh_failure_keeps_partial_token (env : Env) (bot : Bot) (t : Token) (tr : Trace)
    (code : option string) (r : Response) (d : gmap string PyVal) (a e : PyVal) :
  encode_ascii (credentials bot) = Return (credentials bot) ->
  token bot = Some t ->
  let tr1 := access_token_request env bot (refresh_token_data t)
             :: Logging INFO "Initializing session..." :: tr in
  http (world env) tr1 = Return r ->
  status_code r = 200 -> json r = Some (PDict d) ->
  d !! "access_token" = Some a -> d !! "expires_in" = Some e -> d !! "scope" = None ->
  authenticate_session code true env bot tr =
    (Raise (KeyError "scope"),
     set_token
       (Some {| access_token := a; expires_in := e; scope := scope t;
                refresh_token := refresh_token t; token_type := token_type t;
                issued_at := issued_at t |})
       bot,
     tr1).
Proof.
  intros Hascii Ht tr1 Hr Hs Hj Ha He Hsc.
  rewrite (authenticate_session_refresh env bot tr Hascii code t Ht). cbv zeta.
  fold tr1. rewrite Hr, Hs, Hj. simpl.
  unfold refresh, getitem. unfold_monad.
  rewrite Ha. cbv beta iota. rewrite He. cbv beta iota. rewrite Hsc. reflexivity.
Qed.

Lemma refresh_failure_keeps_partial_token_witness :
  authenticate_session None true scopeless_env active_bot [] =
    (Raise (KeyError "scope"),
     set_token
       (Some {| access_token := PStr "B"; expires_in := PInt 7200;
                scope := PStr "edit submit"; refresh_token := PStr "R";
                token_type := "bearer"; issued_at := 0 |})
       active_bot,
     [access_token_request scopeless_env active_bot (refresh_token_data token_A);
      Logging INFO "Initializing session..."]).
Proof.
  apply (refresh_failure_keeps_partial_token scopeless_env active_bot token_A [] None
           (reply 200 (Some (PDict scopeless_object))) scopeless_object
           (PStr "B") (PInt 7200));
    reflexivity.
Defined.

(** ** The expiry test *)

Lemma is_expired_int (env : Env) (t : Token) (E : Z) (tr : Trace) :
  expires_in t = PInt E ->
  is_expired env t tr =
    (Return (Qle_bool (inject_Z (E - 60))
               (total_seconds (clock (world env) (DatetimeNow :: tr) - issued_at t))),
     t, DatetimeNow :: tr).
Proof. intros HE. unfold is_expired. unfold_monad. rewrite HE. reflexivity. Qed.

Lemma is_expired_not_number (env : Env) (t : Token) (tr : Trace) :
  is_number (expires_in t) = false ->
  is_expired env t tr = (Raise TypeError, t, DatetimeNow :: tr).
Proof.
  intros Hn. unfold is_expired. unfold_monad.
  destruct (expires_in t); try discriminate; reflexivity.
Qed.

Lemma token_of_response_expires_in (env : Env) (r_json : PyVal) (t : Token) :
  token_of_response env r_json = Return t -> exists n, expires_in t = PInt n.
Proof.
  unfold token_of_response. intros H.
  destruct (getitem r_json "access_token"); [|discriminate].
  destruct (getitem r_json "expires_in") as [e|]; [|discriminate].
  destruct (py_int env e) as [n|]; [|discriminate].
  destruct (getitem r_json "scope"); [|discriminate].
  destruct (getitem r_json "refresh_token"); [|discriminate].
  injection H as <-. exists n. reflexivity.
Qed.

Lemma total_seconds_le (d1 d2 : Z) : d1 <= d2 -> (total_seconds d1 <= total_seconds d2)%Q.
Proof.
  intros H. unfold total_seconds. apply binary64_monotone.
  unfold Qle. cbn [Qnum Qden]. lia.
Qed.

(** X7. The token a successful first-time exchange stores has an integer
    [expires_in], because the exchange converts it with [int()]; so the
    expiry test never raises on it, and, for [expires_in - 60] between -2^34
    (exclusive) and 2^34 seconds, it answers true exactly when the clock is
    at least [expires_in - 60] seconds past the default issue time of the
    class, wherever on the clock the exchange itself took place. *)
Theorem exchanged_token_expiry (env : Env) (bot bot' : Bot) (code : option string)
    (tr tr' : Trace) :
  authenticate_session code false env bot tr = (Return true, bot', tr') ->
  exists t n,
    token bot' = Some t
    /\ expires_in t = PInt n
    /\ forall tr2,
         exists b : bool,
           is_expired env t tr2 = (Return b, t, DatetimeNow :: tr2)
           /\ (- 2 ^ 34 < n - 60 <= 2 ^ 34 ->
               (b = true <->
                (n - 60) * 1000000
                <= clock (world env) (DatetimeNow :: tr2) - Token_issued_at env)).
Proof.
  intros Hauth.
  destruct (authenticate_session_true _ _ _ _ _ _ Hauth) as [r_json [t [Ht ->]]].
  destruct (token_of_response_expires_in env r_json t Ht) as [n Hn].
  destruct (token_of_response_issued_at env r_json t Ht) as [Hissued _].
  exists t, n. split; [reflexivity|]. split; [exact Hn|].
  intros tr2. eexists. split; [apply (is_expired_int env t n tr2 Hn)|].
  intros Hrange. rewrite Hissued. apply total_seconds_ge. exact Hrange.
Qed.

(** A one-hour token obtained one hour after the class statement is expired
    the moment it is stored. *)
Lemma exchanged_token_expiry_witness :
  exists bot' tr' t,
    authenticate_session (Some "c") false late_env fresh_bot [] = (Return true, bot', tr')
    /\ token bot' = Some t
    /\ is_expired late_env t tr' = (Return true, t, DatetimeNow :: tr').
Proof.
  assert (H : authenticate_session (Some "c") false late_env fresh_bot [] =
              (Return true, active_bot,
               snd (authenticate_session (Some "c") false late_env fresh_bot [])))
    by (vm_compute; reflexivity).
  destruct (exchanged_token_expiry late_env fresh_bot _ (Some "c") [] _ H)
    as [t [n [Ht [Hn Hexp]]]].
  eexists _, _, t. split; [exact H|]. split; [exact Ht|].
  destruct (Hexp (snd (authenticate_session (Some "c") false late_env fresh_bot [])))
    as [b [Hrun Hb]].
  rewrite Hrun.
  assert (Hn' : n = 3600).
  { change (token active_bot) with (Some token_A) in Ht. injection Ht as <-.
    simpl in Hn. injection Hn as <-. reflexivity. }
  assert (Htrue : b = true).
  { rewrite Hn' in Hb. apply Hb; [lia|]. vm_compute. discriminate. }
  rewrite Htrue. reflexivity.
Defined.

(** X8. [Token.refresh] stores [expires_in] as the response gives it,
    without the [int()] of the first exchange.  When the value is not a
    number (a JSON string, null, array or object) the refresh itself
    succeeds, but from then on the expiry test raises [TypeError], and with
    it every [post_comment], before any request is sent. *)
Theorem unconverted_expiry_raises (env : Env) (t : Token) (d : gmap string PyVal)
    (a e s : PyVal) (tr : Trace) :
  d !! "access_token" = Some a -> d !! "expires_in" = Some e -> d !! "scope" = Some s ->
  is_number e = false ->
  exists t',
    refresh (PDict d) env t tr = (Return tt, t', DatetimeNow :: tr)
    /\ expires_in t' = e
    /\ (forall tr2, is_expired env t' tr2 = (Raise TypeError, t', DatetimeNow :: tr2))
    /\ (forall bot tr2,
          token bot = Some t' ->
          post_comment env bot tr2 = (Raise TypeError, bot, DatetimeNow :: tr2)).
Proof.
  intros Ha He Hs Hn.
  eexists. split.
  - unfold refresh, getitem. unfold_monad.
    rewrite Ha. cbv beta iota. rewrite He. cbv beta iota. rewrite Hs. reflexivity.
  - split; [reflexivity|].
    assert (Hexp : forall tr2,
              is_expired env
                (set_issued_at (clock (world env) (DatetimeNow :: tr))
                   (set_scope s (set_expires_in e (set_access_token a t)))) tr2 =
              (Raise TypeError,
               set_issued_at (clock (world env) (DatetimeNow :: tr))
                 (set_scope s (set_expires_in e (set_access_token a t))),
               DatetimeNow :: tr2)).
    { intros tr2. apply is_expired_not_number. exact Hn. }
    split; [exact Hexp|].
    intros bot tr2 Ht.
    rewrite post_comment_cases, (check_token_expiration_cases env bot tr2 _ Ht), Hexp.
    reflexivity.
Qed.

Lemma unconverted_expiry_raises_witness :
  is_number (PStr "7200") = false
  /\ exists t',
       refresh (PDict quoted_expiry_object) expired_env token_A [] =
         (Return tt, t', [DatetimeNow])
       /\ expires_in t' = PStr "7200"
       /\ is_expired expired_env t' [DatetimeNow] =
            (Raise TypeError, t', [DatetimeNow; DatetimeNow]).
Proof.
  split; [reflexivity|].
  destruct (unconverted_expiry_raises expired_env token_A quoted_expiry_object
              (PStr "B") (PStr "7200") (PStr "edit") [] eq_refl eq_refl eq_refl eq_refl)
    as [t' [Hrun [He [Hexp _]]]].
  exists t'. split; [exact Hrun|]. split; [exact He|]. apply Hexp.
Defined.

(** X9. The expiry test is monotone in the clock: a token reported expired
    at one reading is reported expired at every later reading, as long as
    its fields are not changed in between. *)
Theorem is_expired_monotone (env : Env) (t : Token) (tr1 tr2 : Trace) :
  is_expired env t tr1 = (Return true, t, DatetimeNow :: tr1) ->
  clock (world env) (DatetimeNow :: tr1) <= clock (world env) (DatetimeNow :: tr2) ->
  is_expired env t tr2 = (Return true, t, DatetimeNow :: tr2).
Proof.
  unfold is_expired. unfold_monad. intros H1 Hle.
  assert (Hsec : (total_seconds (clock (world env) (DatetimeNow :: tr1) - issued_at t)
                  <= total_seconds (clock (world env) (DatetimeNow :: tr2) - issued_at t))%Q)
    by (apply total_seconds_le; lia).
  assert (Hmono : forall q,
            Qle_bool q (total_seconds (clock (world env) (DatetimeNow :: tr1) - issued_at t))
              = true ->
            Qle_bool q (total_seconds (clock (world env) (DatetimeNow :: tr2) - issued_at t))
              = true).
  { intros q Hq. apply Qle_bool_iff. apply Qle_bool_iff in Hq.
    eapply Qle_trans; eassumption. }
  destruct (expires_in t); simpl in *; try discriminate;
    injection H1 as H1; rewrite (Hmono _ H1); reflexivity.
Qed.

Lemma is_expired_monotone_witness :
  is_expired expired_env token_A [] = (Return true, token_A, [DatetimeNow])
  /\ is_expired expired_env token_A [TimeSleep 900] =
       (Return true, token_A, [DatetimeNow; TimeSleep 900]).
Proof.
  split; [reflexivity|].
  apply (is_expired_monotone expired_env token_A [] [TimeSleep 900]).
  - reflexivity.
  - vm_compute. discriminate.
Defined.

(** ** What the session calls and the delete call leave alone *)

Lemma same_but_token_config (b b' : Bot) : same_but_token b b' -> same_config b b'.
Proof. intros ->. repeat split. Qed.

(** X10. Whatever their outcome, [authenticate_session] and the expiry guard
    change no field of the controller other than the token, and the only
    calls they make are log and console output, clock readings and POSTs to
    the access-token endpoint: they never touch the comment or the delete
    endpoint. *)
Theorem session_calls_frame (env : Env) (bot : Bot) (tr : Trace)
    (code : option string) (is_refresh : bool) :
  (let '(_, bot', tr') := authenticate_session code is_refresh env bot tr in
   same_config bot bot'
   /\ last_comment_fullname bot' = last_comment_fullname bot
   /\ exists new,
        tr' = new ++ tr
        /\ Forall (fun e => is_session_event e = true
                            /\ is_comment_request e = false
                            /\ is_del_request e = false) new)
  /\ (let '(_, bot', tr') := check_token_expiration env bot tr in
      same_config bot bot'
      /\ last_comment_fullname bot' = last_comment_fullname bot
      /\ exists new,
           tr' = new ++ tr
           /\ Forall (fun e => is_session_event e = true
                               /\ is_comment_request e = false
                               /\ is_del_request e = false) new).
Proof.
  assert (Hstrengthen : forall new : Trace,
             Forall (fun e => is_session_event e = true) new ->
             Forall (fun e => is_session_event e = true
                              /\ is_comment_request e = false
                              /\ is_del_request e = false) new).
  { intros new Hall. induction Hall as [|e l He _ IH]; constructor; [|exact IH].
    split; [exact He|]. split.
    - apply session_event_not_comment, He.
    - apply session_event_not_del, He. }
  split.
  - pose proof (guarantees_authenticate_session code is_refresh env bot tr) as Hg.
    destruct (authenticate_session code is_refresh env bot tr) as [[res bot'] tr'].
    destruct Hg as [Hframe [new [-> Hall]]].
    split; [apply same_but_token_config, Hframe|].
    split; [apply same_but_token_fullname, Hframe|].
    exists new. split; [reflexivity|apply Hstrengthen, Hall].
  - pose proof (guarantees_check_token_expiration env bot tr) as Hg.
    destruct (check_token_expiration env bot tr) as [[res bot'] tr'].
    destruct Hg as [Hframe [new [-> Hall]]].
    split; [apply same_but_token_config, Hframe|].
    split; [apply same_but_token_fullname, Hframe|].
    exists new. split; [reflexivity|apply Hstrengthen, Hall].
Qed.

(** X11. Once the expiry guard has returned, [delete_comment] posts the
    stored comment name as [id] and decides on the status alone: true on
    200, false on anything else, the body of the answer never being read.
    It leaves [last_comment_fullname] as it was, also after a successful
    delete. *)
Theorem delete_comment_outcome (env : Env) (bot b0 : Bot) (tr t0 : Trace) (r : Response) :
  check_token_expiration env bot tr = (Return tt, b0, t0) ->
  let tr1 := RequestsPost (OAUTH_API_URI +:+ "/del")
               [("Authorization", format_token env (token b0)); ("User-Agent", USER_AGENT)]
               [("id", last_comment_fullname bot)]
             :: Logging INFO "Deleting previous comment..." :: t0 in
  http (world env) tr1 = Return r ->
  (status_code r = 200 ->
     delete_comment env bot tr =
       (Return true, b0, Print "> Successfully deleted last comment." :: tr1))
  /\ (status_code r <> 200 ->
      delete_comment env bot tr =
        (Return false, b0,
         Logging ERROR "[!] Unable to delete latest comment. Exiting..." :: tr1))
  /\ last_comment_fullname b0 = last_comment_fullname bot.
Proof.
  intros Hguard tr1 Hr.
  assert (Hname : last_comment_fullname b0 = last_comment_fullname bot).
  { pose proof (guarantees_check_token_expiration env bot tr) as Hg.
    rewrite Hguard in Hg. apply same_but_token_fullname, Hg. }
  pose proof (delete_comment_cases env bot tr) as Hrun.
  rewrite Hguard in Hrun. cbv zeta in Hrun.
  unfold del_request, authorization_headers in Hrun. rewrite Hname in Hrun.
  fold tr1 in Hrun. rewrite Hr in Hrun.
  split; [|split; [|exact Hname]].
  - intros Hs. rewrite Hrun, Hs. reflexivity.
  - intros Hs. apply Z.eqb_neq in Hs. rewrite Hrun, Hs. reflexivity.
Qed.

Lemma delete_comment_outcome_witness :
  delete_comment scenario_env (set_last_comment_fullname (PStr "t1_abc") active_bot) [] =
    (Return true, set_last_comment_fullname (PStr "t1_abc") active_bot,
     [Print "> Successfully deleted last comment.";
      RequestsPost (OAUTH_API_URI +:+ "/del")
        [("Authorization", "bearer A"); ("User-Agent", USER_AGENT)]
        [("id", PStr "t1_abc")];
      Logging INFO "Deleting previous comment..."; DatetimeNow]).
Proof.
  apply (proj1 (delete_comment_outcome scenario_env
                  (set_last_comment_fullname (PStr "t1_abc") active_bot)
                  (set_last_comment_fullname (PStr "t1_abc") active_bot)
                  [] [DatetimeNow] (reply 200 None) eq_refl eq_refl)).
  reflexivity.
Defined.

(** X12. When the token is expired and the refresh is refused (any status
    but 200), [post_comment] goes on all the same: it sends the comment
    request right after the refused refresh, with the header of the expired
    token, and the controller still holds that token. *)
Theorem refused_refresh_uses_old_token (env : Env) (bot : Bot) (t : Token) (tr : Trace)
    (r : Response) :
  token bot = Some t ->
  is_expired env t tr = (Return true, t, DatetimeNow :: tr) ->
  encode_ascii (credentials bot) = Return (credentials bot) ->
  let tr2 := access_token_request env bot (refresh_token_data t)
             :: Logging INFO "Initializing session..." :: DatetimeNow :: tr in
  http (world env) tr2 = Return r ->
  status_code r <> 200 ->
  exists res bot' tail,
    post_comment env bot tr =
      (res, bot',
       tail ++ RequestsPost (OAUTH_API_URI +:+ "/comment")
                 [("Authorization", Token_str env t); ("User-Agent", USER_AGENT)]
                 [("api_type", PStr "json"); ("return_rtjson", PBool true);
                  ("text", PStr (message bot)); ("thing_id", PStr "t3_so87rb")]
               :: Logging INFO "Posting comment..." :: tr2)
    /\ token bot' = Some t.
Proof.
  intros Ht Hexp Hascii tr2 Hr Hs.
  assert (Hguard : check_token_expiration env bot tr = (Return tt, bot, tr2)).
  { rewrite (check_token_expiration_cases env bot tr t Ht), Hexp.
    rewrite (authenticate_session_refresh env bot _ Hascii None t Ht). cbv zeta.
    fold tr2. rewrite Hr. apply Z.eqb_neq in Hs. rewrite Hs. reflexivity. }
  clear Hr Hs.
  rewrite post_comment_cases, Hguard. cbv zeta.
  unfold comment_request, authorization_headers. rewrite Ht. simpl format_token.
  destruct (http (world env) _) as [r'|e];
    [|exists (Raise e), bot, []; split; [reflexivity|exact Ht]].
  destruct (status_code r' =? 200);
    [|eexists _, _, [_]; split; [reflexivity|exact Ht]].
  destruct (json r') as [r_json|];
    [|eexists _, _, [_]; split; [reflexivity|exact Ht]].
  destruct (getitem r_json "name");
    [eexists _, _, [_]|eexists _, _, []]; (split; [reflexivity|exact Ht]).
Qed.

Lemma refused_refresh_uses_old_token_witness :
  exists res bot' tail,
    post_comment expired_env active_bot [] =
      (res, bot',
       tail ++ RequestsPost (OAUTH_API_URI +:+ "/comment")
                 [("Authorization", "bearer A"); ("User-Agent", USER_AGENT)]
                 [("api_type", PStr "json"); ("return_rtjson", PBool true);
                  ("text", PStr "hello"); ("thing_id", PStr "t3_so87rb")]
               :: Logging INFO "Posting comment..."
               :: access_token_request expired_env active_bot (refresh_token_data token_A)
               :: Logging INFO "Initializing session..." :: DatetimeNow :: [])
    /\ token bot' = Some token_A.
Proof.
  apply (refused_refresh_uses_old_token expired_env active_bot token_A []
           (reply 503 None) eq_refl eq_refl eq_refl eq_refl).
  vm_compute. discriminate.
Defined.

(** ** Starting up *)




(** ** Exceptions from the network and from unexpected JSON *)

(** X14. Nothing in the loop catches an exception.  A request to the comment
    endpoint that raises makes [post_comment] raise the same exception, with
    no error logged; and a pass that raises, at whatever point of the run,
    ends [run] with that exception and the state the pass left. *)
Theorem raising_pass_ends_run (env : Env) (bot : Bot) (tr : Trace) :
  (forall b t b0 t0 e,
     check_token_expiration env b t = (Return tt, b0, t0) ->
     http (world env) (comment_request env b0 :: Logging INFO "Posting comment..." :: t0)
       = Raise e ->
     run_body env b t =
       (Raise e, b0, comment_request env b0 :: Logging INFO "Posting comment..." :: t0))
  /\ (forall k bk tk e b' t',
      run k env bot tr = (Return None, bk, tk) ->
      run_body env bk tk = (Raise e, b', t') ->
      forall n, (k < n)%nat -> run n env bot tr = (Raise e, b', t')).
Proof.
  split.
  - intros b t b0 t0 e Hguard Hraise.
    rewrite run_body_cases, post_comment_cases, Hguard. cbv zeta.
    rewrite Hraise. reflexivity.
  - intros k bk tk e b' t' Hk Hbody n Hlt.
    replace n with (k + S (n - S k))%nat by lia.
    rewrite run_unfold in *.
    rewrite (while_true_resume run_body env k _ _ _ _ _ Hk).
    rewrite while_true_S, Hbody. reflexivity.
Qed.

Lemma raising_pass_ends_run_witness :
  run 3 offline_env active_bot [] =
    (Raise RequestException, active_bot,
     [comment_request offline_env active_bot; Logging INFO "Posting comment...";
      DatetimeNow; Logging INFO "Running..."]).
Proof.
  pose proof (raising_pass_ends_run offline_env active_bot []) as [Hpost Hrun].
  apply (Hrun 0%nat active_bot [Logging INFO "Running..."] RequestException); [reflexivity| |lia].
  apply (Hpost active_bot [Logging INFO "Running..."] active_bot
           [DatetimeNow; Logging INFO "Running..."] RequestException);
    reflexivity.
Defined.

(** X15. A 200 answer whose JSON value is not an object (an array, a
    string, a number, null) is parsed without complaint, and the indexing
    that follows raises [TypeError]: out of [post_comment], with
    [last_comment_fullname] unchanged, and out of a first-time
    [authenticate_session], with the controller unchanged. *)
Theorem non_object_json_raises (env : Env) (bot : Bot) (tr : Trace) :
  (forall b0 t0 r j,
     check_token_expiration env bot tr = (Return tt, b0, t0) ->
     let tr1 := comment_request env b0 :: Logging INFO "Posting comment..." :: t0 in
     http (world env) tr1 = Return r ->
     status_code r = 200 -> json r = Some j -> is_object j = false ->
     post_comment env bot tr = (Raise TypeError, b0, tr1)
     /\ last_comment_fullname b0 = last_comment_fullname bot)
  /\ (forall code r j,
      encode_ascii (credentials bot) = Return (credentials bot) ->
      let tr1 := access_token_request env bot (authorization_code_data code)
                 :: Logging INFO "Initializing session..." :: tr in
      http (world env) tr1 = Return r ->
      status_code r = 200 -> json r = Some j -> is_object j = false ->
      authenticate_session code false env bot tr = (Raise TypeError, bot, tr1)).
Proof.
  assert (Hget : forall j key, is_object j = false -> getitem j key = Raise TypeError).
  { intros j key Hj. destruct j; try discriminate; reflexivity. }
  split.
  - intros b0 t0 r j Hguard tr1 Hr Hs Hj Hobj. split.
    + rewrite post_comment_cases, Hguard. cbv zeta. fold tr1.
      rewrite Hr, Hs, Hj. simpl. rewrite (Hget j "name" Hobj). reflexivity.
    + pose proof (guarantees_check_token_expiration env bot tr) as Hg.
      rewrite Hguard in Hg. apply same_but_token_fullname, Hg.
  - intros code r j Hascii tr1 Hr Hs Hj Hobj.
    rewrite (authenticate_session_exchange env bot tr Hascii code). cbv zeta. fold tr1.
    rewrite Hr, Hs, Hj. simpl. unfold token_of_response.
    rewrite (Hget j "access_token" Hobj). reflexivity.
Qed.

Lemma non_object_json_raises_witness :
  is_object (PList [PStr "t1_abc"]) = false
  /\ post_comment array_env active_bot [] =
       (Raise TypeError, active_bot,
        [comment_request array_env active_bot; Logging INFO "Posting comment...";
         DatetimeNow]).
Proof.
  split; [reflexivity|].
  apply (proj1 (non_object_json_raises array_env active_bot [])
           active_bot [DatetimeNow] (reply 200 (Some (PList [PStr "t1_abc"])))
           (PList [PStr "t1_abc"]));
    reflexivity.
Defined.

(** ** Invariants of the loop *)

Lemma same_config_refl (b : Bot) : same_config b b.
Proof. repeat split. Qed.

Lemma same_config_trans (b1 b2 b3 : Bot) :
  same_config b1 b2 -> same_config b2 b3 -> same_config b1 b3.
Proof.
  unfold same_config. intros [H1 [H2 H3]] [H4 [H5 H6]].
  repeat split; congruence.
Qed.

Lemma session_event_loop (e : Event) : is_session_event e = true -> is_loop_event e = true.
Proof.
  destruct e; simpl; try discriminate; try reflexivity.
  intros ->. reflexivity.
Qed.

Ltac loop_step :=
  lazymatch goal with
  | |- guarantees _ _ (ret _) => apply guarantees_ret; exact same_config_refl
  | |- guarantees _ _ (lift _) => apply guarantees_lift; exact same_config_refl
  | |- guarantees _ _ get => apply guarantees_get; exact same_config_refl
  | |- guarantees _ _ ask => apply guarantees_ask; exact same_config_refl
  | |- guarantees _ _ (emit _) =>
      apply guarantees_emit; [exact same_config_refl | reflexivity]
  | |- guarantees _ _ (requests_post _ _ _) =>
      apply guarantees_requests_post; [exact same_config_refl | reflexivity]
  | |- guarantees _ _ (modify _) => apply guarantees_modify; intros; repeat split
  | |- guarantees _ _ (bind _ _) =>
      apply guarantees_bind; [exact same_config_trans | | intros ]
  end.

Section LoopGuarantees.
Let loop (e : Event) : Prop := is_loop_event e = true.

Lemma loop_check_token_expiration : guarantees same_config loop check_token_expiration.
Proof.
  eapply guarantees_weaken; [| |apply guarantees_check_token_expiration].
  - exact same_but_token_config.
  - exact session_event_loop.
Qed.

Lemma loop_post_comment : guarantees same_config loop post_comment.
Proof.
  unfold post_comment, logging, print.
  loop_step; [apply loop_check_token_expiration|].
  repeat loop_step.
  destruct (status_code _ =? 200); [|repeat loop_step].
  destruct (json _) as [r_json|]; repeat loop_step.
Qed.

Lemma loop_delete_comment : guarantees same_config loop delete_comment.
Proof.
  unfold delete_comment, logging, print.
  loop_step; [apply loop_check_token_expiration|].
  repeat loop_step.
  destruct (status_code _ =? 200); repeat loop_step.
Qed.

Lemma loop_run_body : guarantees same_config loop run_body.
Proof.
  unfold run_body, time_sleep.
  loop_step; [apply loop_post_comment|].
  destruct (negb _); [loop_step|].
  repeat loop_step.
  destruct (truthy _); [|loop_step].
  loop_step; [apply loop_delete_comment|].
  destruct (negb _); repeat loop_step.
Qed.

Lemma loop_while_true (fuel : nat) : guarantees same_config loop (while_true fuel run_body).
Proof.
  induction fuel as [|fuel IH]; simpl.
  - loop_step.
  - loop_step; [apply loop_run_body|].
    destruct a; [exact IH|loop_step].
Qed.
End LoopGuarantees.

(** X16. However long it runs and however it ends, [run] leaves the client
    id, the client secret and the message as they were, and the only calls
    it makes are log and console output, clock readings, sleeps and POSTs to
    the access-token, comment and delete endpoints: it never goes back to
    the authorize endpoint, the browser or the console prompt. *)
Theorem run_frame (fuel : nat) (env : Env) (bot : Bot) (tr : Trace) :
  let '(_, bot', tr') := run fuel env bot tr in
  same_config bot bot'
  /\ exists new, tr' = new ++ tr /\ Forall (fun e => is_loop_event e = true) new.
Proof.
  assert (Hrun : guarantees same_config (fun e => is_loop_event e = true) (run fuel)).
  { unfold run, logging.
    apply guarantees_bind; [exact same_config_trans| |intros _; apply loop_while_true].
    apply guarantees_emit; [exact same_config_refl|reflexivity]. }
  exact (Hrun env bot tr).
Qed.

Lemma not_del_id_truthy (e : Event) : is_del_request e = false -> del_id_truthy e = true.
Proof.
  destruct e; simpl; try reflexivity.
  intros ->. reflexivity.
Qed.

Lemma del_request_id_truthy (env : Env) (b : Bot) :
  truthy (last_comment_fullname b) = true -> del_id_truthy (del_request env b) = true.
Proof.
  intros Hname. unfold del_request, del_id_truthy.
  rewrite String.eqb_refl, Hname. reflexivity.
Qed.

Section NamedDeletes.
Variable env : Env.
Let named (e : Event) : Prop := del_id_truthy e = true.
Let extends (tr tr' : Trace) : Prop := exists new, tr' = new ++ tr /\ Forall named new.

Lemma extends_refl (tr : Trace) : extends tr tr.
Proof. exists []. split; [reflexivity|constructor]. Qed.

Lemma extends_trans (tr1 tr2 tr3 : Trace) : extends tr1 tr2 -> extends tr2 tr3 -> extends tr1 tr3.
Proof.
  intros [new1 [-> H1]] [new2 [-> H2]].
  exists (new2 ++ new1). split; [apply app_assoc|].
  apply Forall_app; split; assumption.
Qed.

Lemma extends_cons (e : Event) (tr tr' : Trace) :
  named e -> extends tr tr' -> extends tr (e :: tr').
Proof.
  intros He [new [-> Hall]]. exists (e :: new). split; [reflexivity|].
  constructor; assumption.
Qed.

Lemma extends_guard (b : Bot) (tr : Trace) :
  let '(_, b0, t0) := check_token_expiration env b tr in
  last_comment_fullname b0 = last_comment_fullname b /\ extends tr t0.
Proof.
  pose proof (guarantees_check_token_expiration env b tr) as Hg.
  destruct (check_token_expiration env b tr) as [[res b0] t0].
  destruct Hg as [Hframe [new [-> Hall]]].
  split; [apply same_but_token_fullname, Hframe|].
  exists new. split; [reflexivity|].
  induction Hall as [|e l He _ IH]; constructor; [|exact IH].
  apply not_del_id_truthy, session_event_not_del, He.
Qed.

Lemma extends_post_comment (b : Bot) (tr : Trace) :
  let '(_, _, t1) := post_comment env b tr in extends tr t1.
Proof.
  pose proof (guarantees_post_comment env b tr) as Hg.
  destruct (post_comment env b tr) as [[res b1] t1].
  destruct Hg as [_ [new [-> Hall]]].
  exists new. split; [reflexivity|].
  induction Hall as [|e l He _ IH]; constructor; [|exact IH].
  apply not_del_id_truthy, He.
Qed.

Lemma extends_delete_comment (b : Bot) (tr : Trace) :
  truthy (last_comment_fullname b) = true ->
  let '(_, _, t2) := delete_comment env b tr in extends tr t2.
Proof.
  intros Hname. rewrite delete_comment_cases.
  pose proof (extends_guard b tr) as Hg.
  destruct (check_token_expiration env b tr) as [[[[]|e] b0] t0];
    destruct Hg as [Hsame Hext]; [|exact Hext].
  cbv zeta.
  assert (Hsent : extends tr
                    (del_request env b0 :: Logging INFO "Deleting previous comment..." :: t0)).
  { apply extends_cons; [|apply extends_cons; [reflexivity|exact Hext]].
    apply del_request_id_truthy. rewrite Hsame. exact Hname. }
  destruct (http (world env) _) as [r|e]; [|exact Hsent].
  destruct (status_code r =? 200); apply extends_cons; try reflexivity; exact Hsent.
Qed.

Lemma extends_run_body (b : Bot) (tr : Trace) :
  let '(_, _, t') := run_body env b tr in extends tr t'.
Proof.
  rewrite run_body_cases.
  pose proof (extends_post_comment b tr) as Hpost.
  destruct (post_comment env b tr) as [[[[|]|e] b1] t1]; try exact Hpost.
  assert (Hslept : extends tr (TimeSleep 900 :: t1))
    by (apply extends_cons; [reflexivity|exact Hpost]).
  destruct (truthy (last_comment_fullname b1)) eqn:Hname; [|exact Hslept].
  pose proof (extends_delete_comment b1 (TimeSleep 900 :: t1) Hname) as Hdel.
  destruct (delete_comment env b1 (TimeSleep 900 :: t1)) as [[[[|]|e] b2] t2].
  - apply extends_cons; [reflexivity|]. eapply extends_trans; eassumption.
  - eapply extends_trans; eassumption.
  - eapply extends_trans; eassumption.
Qed.

Lemma extends_while_true (fuel : nat) :
  forall b tr, let '(_, _, t') := while_true fuel run_body env b tr in extends tr t'.
Proof.
  induction fuel as [|fuel IH]; intros b tr.
  - apply extends_refl.
  - rewrite while_true_S.
    pose proof (extends_run_body b tr) as Hbody.
    destruct (run_body env b tr) as [[[[|]|e] b1] t1]; try exact Hbody.
    specialize (IH b1 t1).
    destruct (while_true fuel run_body env b1 t1) as [[res b2] t2].
    eapply extends_trans; eassumption.
Qed.
End NamedDeletes.

(** X17. Every request [run] sends to the delete endpoint names exactly one
    [id], and that id is truthy: the loop never asks for the deletion of an
    empty, null or zero comment name. *)
Theorem run_deletes_named_comments (fuel : nat) (env : Env) (bot : Bot) (tr : Trace) :
  let '(_, _, tr') := run fuel env bot tr in
  exists new, tr' = new ++ tr /\ Forall (fun e => del_id_truthy e = true) new.
Proof.
  rewrite run_unfold.
  pose proof (extends_while_true env fuel bot (Logging INFO "Running..." :: tr)) as H.
  destruct (while_true fuel run_body env bot (Logging INFO "Running..." :: tr))
    as [[res b'] t'].
  destruct H as [new [-> Hall]].
  exists (new ++ [Logging INFO "Running..."]). split.
  - rewrite <- app_assoc. reflexivity.
  - apply Forall_app. split; [exact Hall|]. constructor; [reflexivity|constructor].
Qed.

Lemma filter_session_events (l : Trace) :
  Forall (fun e => is_session_event e = true) l ->
  List.filter is_comment_request l = [] /\ List.filter is_del_request l = [].
Proof.
  induction 1 as [|e l He _ [IHc IHd]]; [split; reflexivity|].
  simpl. rewrite (session_event_not_comment e He), (session_event_not_del e He).
  split; assumption.
Qed.

(** X18. A call of [post_comment] that gets past the expiry guard sends
    exactly one request to the comment endpoint and none to the delete
    endpoint, whatever the answer: there is no retry. *)
Theorem post_comment_sends_one_request (env : Env) (bot b0 : Bot) (tr t0 : Trace) :
  check_token_expiration env bot tr = (Return tt, b0, t0) ->
  exists res bot' new,
    post_comment env bot tr = (res, bot', new ++ tr)
    /\ List.filter is_comment_request new = [comment_request env b0]
    /\ List.filter is_del_request new = [].
Proof.
  intros Hguard.
  pose proof (guarantees_check_token_expiration env bot tr) as Hg.
  rewrite Hguard in Hg. destruct Hg as [_ [new0 [-> Hall]]].
  destruct (filter_session_events new0 Hall) as [Hc Hd].
  rewrite post_comment_cases, Hguard. cbv zeta.
  assert (Hsent : forall tail : Trace,
            List.filter is_comment_request tail = [] ->
            List.filter is_del_request tail = [] ->
            List.filter is_comment_request
              (tail ++ comment_request env b0 :: Logging INFO "Posting comment..." :: new0)
              = [comment_request env b0]
            /\ List.filter is_del_request
                 (tail ++ comment_request env b0 :: Logging INFO "Posting comment..." :: new0)
               = []).
  { intros tail Htc Htd. rewrite !List.filter_app, Htc, Htd. simpl.
    rewrite Hc, Hd. split; reflexivity. }
  destruct (http (world env) _) as [r|e].
  - destruct (status_code r =? 200).
    + destruct (json r) as [r_json|].
      * destruct (getitem r_json "name").
        -- eexists _, _, (_ :: _ :: _ :: new0). split; [reflexivity|].
           apply (Hsent [Print "> Successfully posted comment."]); reflexivity.
        -- eexists _, _, (_ :: _ :: new0). split; [reflexivity|].
           apply (Hsent []); reflexivity.
      * eexists _, _, (_ :: _ :: _ :: new0). split; [reflexivity|].
        apply (Hsent [Logging DEBUG "Could not load access token..."]); reflexivity.
    + eexists _, _, (_ :: _ :: _ :: new0). split; [reflexivity|].
      apply (Hsent [Logging ERROR "[!] Unable to post new comment. Exiting..."]); reflexivity.
  - eexists _, _, (_ :: _ :: new0). split; [reflexivity|].
    apply (Hsent []); reflexivity.
Qed.

Lemma post_comment_sends_one_request_witness :
  exists res bot' new,
    post_comment scenario_env active_bot [] = (res, bot', new ++ [])
    /\ List.filter is_comment_request new = [comment_request scenario_env active_bot]
    /\ List.filter is_del_request new = [].
Proof.
  apply (post_comment_sends_one_request scenario_env active_bot active_bot []
           [DatetimeNow]).
  reflexivity.
Defined.
